(** * binary_parser: a decoder for a small binary packet format

    Shallow embedding of [src/binary_parser.py] and the properties of
    [parse_packet] and [calculate_checksum].

    Wire format (all integers big endian):
      offset 0, 2 bytes   magic number 0xCAFE
      offset 2, 1 byte    packet type  0x01 DATA, 0x02 CMD, 0x03 ACK
      offset 3, 2 bytes   payload length
      offset 5, n bytes   payload
      offset 5+n, 1 byte  checksum, XOR of all the bytes before it *)

From Stdlib Require Import ZArith Ascii Strings.Byte DecimalString HexadecimalString.
From Stdlib Require Import DecimalPos DecimalZ.
From stdpp Require Import gmap strings list.

Open Scope Z_scope.

(** ** The part of the Python runtime the parser relies on *)

Module Py.

(** Values a caller can hand to [parse_packet], and the values stored in
    the dictionary it returns. *)
Inductive pyval : Type :=
| PyNone
| PyInt (z : Z)
| PyStr (s : string)
| PyByteArray (bs : list byte)
| PyBytes (bs : list byte).

(** The exceptions that can leave the parser or the Python primitives it
    calls. [ParsingError] is the class of [binary_parser.py]; the others
    are builtin ([StructError] is [struct.error]). *)
Inductive exn : Type :=
| ParsingError (msg : string)
| TypeError (msg : string)
| IndexError
| StructError
| ValueError.

Inductive result (A : Type) : Type :=
| Ok (a : A)
| Raise (e : exn).
Arguments Ok {A} a.
Arguments Raise {A} e.

(** [isinstance(v, bytes)] *)
Definition isinstance_bytes (v : pyval) : bool :=
  match v with
  | PyBytes _ => true
  | _ => false
  end.

(** Iterating over or indexing a [bytes] object yields ints in 0..255. *)
Definition byte_val (b : byte) : Z := Z.of_N (Byte.to_N b).

(** [len(bs)] *)
Definition len {A} (l : list A) : Z := Z.of_nat (length l).

(** A slice bound is moved into [0, len]: a negative bound counts from the
    end, and both are clipped. *)
Definition clip (n i : Z) : Z :=
  if i <? 0 then Z.max (i + n) 0 else Z.min i n.

(** [bs[lo:hi]]: slicing never raises, it truncates. *)
Definition slice {A} (l : list A) (lo hi : Z) : list A :=
  let lo' := clip (len l) lo in
  let hi' := clip (len l) hi in
  take (Z.to_nat (hi' - lo')) (drop (Z.to_nat lo') l).

(** [bs[i]]: indexing raises [IndexError] outside [-len, len). *)
Definition index (bs : list byte) (i : Z) : result Z :=
  let j := if i <? 0 then i + len bs else i in
  if (j <? 0) || (len bs <=? j) then Raise IndexError
  else match bs !! Z.to_nat j with
       | Some b => Ok (byte_val b)
       | None => Raise IndexError
       end.

(** [struct.unpack(">H", buf)[0]]: the buffer must hold exactly two
    bytes. *)
Definition unpack_H (buf : list byte) : result Z :=
  match buf with
  | [hi; lo] => Ok (byte_val hi * 256 + byte_val lo)
  | _ => Raise StructError
  end.

(** One integer in 0..255 as a byte, as [bytes([z])] and the ["B"] format
    of [struct.pack] need it. *)
Definition byte_of_Z (z : Z) : option byte :=
  if z <? 0 then None else Byte.of_N (Z.to_N z).

(** [struct.pack(">H", z)] *)
Definition pack_H (z : Z) : result (list byte) :=
  if (z <? 0) || (65535 <? z) then Raise StructError
  else match byte_of_Z (z / 256), byte_of_Z (z mod 256) with
       | Some hi, Some lo => Ok [hi; lo]
       | _, _ => Raise StructError
       end.

(** [struct.pack(">B", z)] *)
Definition pack_B (z : Z) : result (list byte) :=
  match byte_of_Z z with
  | Some b => Ok [b]
  | None => Raise StructError
  end.

(** [bytes([z])] *)
Definition bytes_of_int (z : Z) : result (list byte) :=
  match byte_of_Z z with
  | Some b => Ok [b]
  | None => Raise ValueError
  end.

(** [str(z)], the rendering of [{z}] in an f-string. *)
Definition str (z : Z) : string :=
  DecimalString.NilZero.string_of_int (Z.to_int z).

Definition hex_digits (z : Z) : string :=
  HexadecimalString.NilZero.string_of_uint (N.to_hex_uint (Z.to_N z)).

Fixpoint zeros (n : nat) : string :=
  match n with
  | O => EmptyString
  | S n' => String "0"%char (zeros n')
  end.

(** [format(z, "#0<width>x")], the rendering of [{z:#04x}] and
    [{z:#02x}]: sign, then the prefix 0x, then the digits padded with
    zeros up to the total width. *)
Definition format_hex (width : nat) (z : Z) : string :=
  let sign := if z <? 0 then "-" else "" in
  let digits := hex_digits (Z.abs z) in
  let used := (String.length sign + 2 + String.length digits)%nat in
  sign +:+ "0x" +:+ zeros (width - used) +:+ digits.

End Py.

Import Py.

(** ** Reads of the input buffer

    The parser runs in an exception monad that also records, in order,
    every slice and every index taken of the input buffer [data]. *)

Inductive access : Type :=
| ReadSlice (lo hi : Z)
| ReadIndex (i : Z).

Definition M (A : Type) : Type := (list access * result A)%type.

Definition ret {A} (a : A) : M A := ([], Ok a).

Definition raise {A} (e : exn) : M A := ([], Raise e).

Definition trace {A} (m : M A) : list access := fst m.
Definition outcome {A} (m : M A) : result A := snd m.

(** Sequencing: an exception stops the run, and the reads made so far are
    kept. *)
Definition bind {A B} (m : M A) (k : A -> M B) : M B :=
  match outcome m with
  | Ok a => (trace m ++ trace (k a), outcome (k a))
  | Raise e => (trace m, Raise e)
  end.

Definition lift {A} (r : result A) : M A := ([], r).

Declare Scope py_scope.
Delimit Scope py_scope with py.
Notation "'let*' x ':=' c 'in' k" := (bind c (fun x => k))
  (at level 10, x name, c at level 100, k at level 200) : py_scope.

(** [data[lo:hi]] *)
Definition read_slice (data : list byte) (lo hi : Z) : M (list byte) :=
  ([ReadSlice lo hi], Ok (slice data lo hi)).

(** [data[i]] *)
Definition read_index (data : list byte) (i : Z) : M Z :=
  ([ReadIndex i], index data i).

(** ** binary_parser.py *)

Definition MAGIC_NUMBER : Z := 0xCAFE.
Definition MAX_PAYLOAD_SIZE : Z := 1024.

(** [calculate_checksum]: the loop [checksum ^= byte] from [checksum = 0]. *)
Definition calculate_checksum (data_bytes : list byte) : Z :=
  fold_left (fun checksum b => Z.lxor checksum (byte_val b)) data_bytes 0.

(** The messages of the [ParsingError]s, one per [raise] of
    [parse_packet]. *)
Definition msg_insufficient_header (available : Z) : string :=
  "Dados insuficientes para cabeçalho: " +:+ str available +:+ " bytes".

Definition msg_invalid_magic (got : Z) : string :=
  "Magic number inválido: " +:+ format_hex 4 got.

Definition msg_unknown_type (got : Z) : string :=
  "Tipo de pacote desconhecido: " +:+ format_hex 2 got.

Definition msg_insufficient_body (expected available : Z) : string :=
  "Dados insuficientes para payload e checksum. Esperado: " +:+ str expected
  +:+ ", Recebido: " +:+ str available.

Definition msg_checksum_mismatch (expected actual : Z) : string :=
  "Checksum inválido. Esperado: " +:+ format_hex 2 expected
  +:+ ", Recebido: " +:+ format_hex 2 actual.

Definition msg_empty_command_payload : string :=
  "Tamanho de pacote insuficiente".

(** The message of the size check that is commented out in the source
    (lines 69-70); no [raise] of [parse_packet] builds it. *)
Definition msg_payload_too_large (payload_len : Z) : string :=
  "Payload excede o tamanho máximo: " +:+ str payload_len +:+ " > "
  +:+ str MAX_PAYLOAD_SIZE.

(** The dictionary built at step 7. *)
Definition packet_dict (magic packet_type payload_len : Z)
    (payload : list byte) (actual_checksum : Z) : gmap string pyval :=
  <["magic" := PyInt magic]>
  (<["type" := PyInt packet_type]>
  (<["payload_len" := PyInt payload_len]>
  (<["payload" := PyBytes payload]>
  (<["checksum" := PyInt actual_checksum]> ∅)))).

Open Scope py_scope.

(** The body of [parse_packet] once [data] is known to be [bytes]. *)
Definition parse_bytes (data : list byte) : M (gmap string pyval) :=
  if len data <? 5 then
    raise (ParsingError (msg_insufficient_header (len data)))
  else
    let* magic_buf := read_slice data 0 2 in
    let* magic := lift (unpack_H magic_buf) in
    if negb (magic =? MAGIC_NUMBER) then
      raise (ParsingError (msg_invalid_magic magic))
    else
      let* packet_type := read_index data 2 in
      if negb (bool_decide (packet_type ∈ [0x01; 0x02; 0x03])) then
        raise (ParsingError (msg_unknown_type packet_type))
      else
        let* len_buf := read_slice data 3 5 in
        let* payload_len := lift (unpack_H len_buf) in
        let expected_total_len := 2 + 1 + 2 + payload_len + 1 in
        if len data <? expected_total_len then
          raise (ParsingError
                   (msg_insufficient_body expected_total_len (len data)))
        else
          let payload_start := 5 in
          let payload_end := payload_start + payload_len in
          let* payload := read_slice data payload_start payload_end in
          let* covered := read_slice data 0 payload_end in
          let expected_checksum := calculate_checksum covered in
          let* actual_checksum := read_index data payload_end in
          if negb (expected_checksum =? actual_checksum) then
            raise (ParsingError
                     (msg_checksum_mismatch expected_checksum actual_checksum))
          else
            let result :=
              packet_dict magic packet_type payload_len payload
                          actual_checksum in
            if packet_type =? 0x02 then
              if (payload_len =? 0) || (len payload <? 1) then
                raise (ParsingError msg_empty_command_payload)
              else
                let* command_code := lift (index payload 0) in
                ret (<["command_code" := PyInt command_code]> result)
            else
              ret result.

(** [parse_packet(data)]: the first statement raises [TypeError] unless
    [isinstance(data, bytes)], that is unless [data] is a [PyBytes]. *)
Definition parse_packet (data : pyval) : M (gmap string pyval) :=
  match data with
  | PyBytes bs => parse_bytes bs
  | _ => raise (TypeError "Entrada deve ser bytes")
  end.

(** The packet built in the example of the source (lines 121-126):
    [struct.pack(">HBH", MAGIC_NUMBER, packet_type, len(payload))], the
    payload, and the checksum of both. *)
Definition build_packet (packet_type : Z) (payload : list byte)
  : result (list byte) :=
  match pack_H MAGIC_NUMBER, pack_B packet_type, pack_H (len payload) with
  | Ok m, Ok t, Ok l =>
      let packet_data_no_checksum := (m ++ t ++ l) ++ payload in
      let checksum := calculate_checksum packet_data_no_checksum in
      match bytes_of_int checksum with
      | Ok c => Ok (packet_data_no_checksum ++ c)
      | Raise e => Raise e
      end
  | Raise e, _, _ => Raise e
  | _, Raise e, _ => Raise e
  | _, _, Raise e => Raise e
  end.

Close Scope py_scope.

(** The three header fields as [parse_packet] reads them (lines 55, 60
    and 65), and the three places it reads once the declared length is
    known (lines 83, 90 and 91). *)
Definition magic_field (data : list byte) : result Z :=
  unpack_H (slice data 0 2).

Definition type_field (data : list byte) : result Z :=
  index data 2.

Definition length_field (data : list byte) : result Z :=
  unpack_H (slice data 3 5).

Definition payload_of (data : list byte) (payload_len : Z) : list byte :=
  slice data 5 (5 + payload_len).

Definition covered_of (data : list byte) (payload_len : Z) : list byte :=
  slice data 0 (5 + payload_len).

Definition checksum_field (data : list byte) (payload_len : Z) : result Z :=
  index data (5 + payload_len).

(** The reads of the header, and the reads of a run that reaches the
    checksum comparison. *)
Definition header_reads : list access :=
  [ReadSlice 0 2; ReadIndex 2; ReadSlice 3 5].

Definition all_reads (payload_len : Z) : list access :=
  header_reads ++
  [ReadSlice 5 (5 + payload_len); ReadSlice 0 (5 + payload_len);
   ReadIndex (5 + payload_len)].

(** An access that stays inside the five bytes of the header. *)
Definition within_header (a : access) : Prop :=
  match a with
  | ReadSlice lo hi => 0 <= lo /\ hi <= 5
  | ReadIndex i => 0 <= i < 5
  end.

(** ** Every run of [parse_bytes]

    [header_ok data t n]: the buffer passes the header length, magic and
    type checks, with type [t] and declared payload length [n].
    [body_ok data n c]: it also passes the total length check, and [c] is
    the byte after the payload. *)

Definition header_ok (data : list byte) (t n : Z) : Prop :=
  5 <= len data /\ magic_field data = Ok MAGIC_NUMBER /\
  type_field data = Ok t /\ t ∈ [0x01; 0x02; 0x03] /\
  length_field data = Ok n.

Definition body_ok (data : list byte) (n c : Z) : Prop :=
  5 + n + 1 <= len data /\ checksum_field data n = Ok c.

Inductive decoded (data : list byte) : M (gmap string pyval) -> Prop :=
| dec_short_header :
    len data < 5 ->
    decoded data
      ([], Raise (ParsingError (msg_insufficient_header (len data))))
| dec_invalid_magic magic :
    5 <= len data -> magic_field data = Ok magic ->
    magic <> MAGIC_NUMBER ->
    decoded data
      ([ReadSlice 0 2], Raise (ParsingError (msg_invalid_magic magic)))
| dec_unknown_type t :
    5 <= len data -> magic_field data = Ok MAGIC_NUMBER ->
    type_field data = Ok t -> t ∉ [0x01; 0x02; 0x03] ->
    decoded data
      ([ReadSlice 0 2; ReadIndex 2],
       Raise (ParsingError (msg_unknown_type t)))
| dec_insufficient_body t n :
    header_ok data t n -> len data < 5 + n + 1 ->
    decoded data
      (header_reads,
       Raise (ParsingError (msg_insufficient_body (5 + n + 1) (len data))))
| dec_checksum_mismatch t n c :
    header_ok data t n -> body_ok data n c ->
    calculate_checksum (covered_of data n) <> c ->
    decoded data
      (all_reads n,
       Raise (ParsingError
                (msg_checksum_mismatch
                   (calculate_checksum (covered_of data n)) c)))
| dec_empty_command c :
    header_ok data 0x02 0 -> body_ok data 0 c ->
    calculate_checksum (covered_of data 0) = c ->
    decoded data
      (all_reads 0, Raise (ParsingError msg_empty_command_payload))
| dec_command n c code rest :
    header_ok data 0x02 n -> body_ok data n c ->
    calculate_checksum (covered_of data n) = c ->
    n <> 0 -> payload_of data n = code :: rest ->
    decoded data
      (all_reads n,
       Ok (<["command_code" := PyInt (byte_val code)]>
             (packet_dict MAGIC_NUMBER 0x02 n (code :: rest) c)))
| dec_other t n c :
    header_ok data t n -> body_ok data n c ->
    calculate_checksum (covered_of data n) = c ->
    t <> 0x02 ->
    decoded data
      (all_reads n,
       Ok (packet_dict MAGIC_NUMBER t n (payload_of data n) c)).

(** The XOR-fold of a sequence of integers, from an accumulator of zero. *)
Definition xor_fold (l : list Z) : Z := foldr Z.lxor 0 l.

(** A DATA packet with a payload of 1025 zero bytes. *)
Definition oversized_packet : list byte :=
  [xca; xfe; x01; x04; x01] ++ replicate 1025 x00 ++ [x30].

(** The errors the repository categorizes: [ParsingError], the one class
    [binary_parser.py] defines (lines 18-20) and the harness expects
    ([fuzzer.py], line 28). [IndexError], [struct.error] and [TypeError] are
    the ones the harness prints as unexpected and raises again (lines
    33-38). *)
Definition categorized (e : exn) : bool :=
  match e with
  | ParsingError _ => true
  | _ => false
  end.

(** A string without a comma, as the decimal rendering of an integer is. *)
Fixpoint no_comma (s : string) : Prop :=
  match s with
  | EmptyString => True
  | String c s' => c <> ","%char /\ no_comma s'
  end.

(** An access that stays inside a buffer of [n] bytes: a slice that is not
    truncated, an index that does not raise. *)
Definition in_bounds (n : Z) (a : access) : Prop :=
  match a with
  | ReadSlice lo hi => 0 <= lo /\ lo <= hi /\ hi <= n
  | ReadIndex i => 0 <= i < n
  end.

(** The packet with a wrong checksum of the example of the source (line
    138): [valid_packet[:-1] + bytes([(checksum + 1) % 256])]. *)
Definition corrupt_checksum (valid_packet : list byte) (checksum : Z)
  : result (list byte) :=
  match bytes_of_int ((checksum + 1) mod 256) with
  | Ok c => Ok (slice valid_packet 0 (-1) ++ c)
  | Raise e => Raise e
  end.

(** ** fuzzer.py *)

(** [type(e).__name__] and [str(e)] of the exceptions of the parser; the
    builtin ones carry the message CPython gives them. *)
Definition exn_name (e : exn) : string :=
  match e with
  | ParsingError _ => "ParsingError"
  | TypeError _ => "TypeError"
  | IndexError => "IndexError"
  | StructError => "error"
  | ValueError => "ValueError"
  end.

Definition exn_str (e : exn) : string :=
  match e with
  | ParsingError msg => msg
  | TypeError msg => msg
  | IndexError => "index out of range"
  | StructError => "unpack requires a buffer of 2 bytes"
  | ValueError => "bytes must be in range(0, 256)"
  end.

(** [type(v).__name__] *)
Definition type_name (v : pyval) : string :=
  match v with
  | PyNone => "NoneType"
  | PyInt _ => "int"
  | PyStr _ => "str"
  | PyByteArray _ => "bytearray"
  | PyBytes _ => "bytes"
  end.

(** Two lowercase hexadecimal digits per byte. *)
Definition hex_of_byte (b : byte) : string :=
  let digits := hex_digits (byte_val b) in
  zeros (2 - String.length digits) +:+ digits.

Fixpoint hex_of_bytes (bs : list byte) : string :=
  match bs with
  | [] => EmptyString
  | b :: bs' => hex_of_byte b +:+ hex_of_bytes bs'
  end.

(** [v.hex()]: a method of [bytes] and [bytearray]; the other values have
    no such attribute. *)
Definition py_hex (v : pyval) : option string :=
  match v with
  | PyBytes bs => Some (hex_of_bytes bs)
  | PyByteArray bs => Some (hex_of_bytes bs)
  | _ => None
  end.

(** What can leave [TestOneInput]: an exception of the parser, or the
    [AttributeError] of [data.hex()] inside the handler. *)
Inductive harness_exn : Type :=
| FromParser (e : exn)
| AttributeError (msg : string).

Inductive harness_result : Type :=
| Returned
| Escaped (e : harness_exn).

Definition msg_unexpected (e : exn) : string :=
  String "010"%char
    (">>> Exceção Inesperada Encontrada: " +:+ exn_name e +:+ ": "
     +:+ exn_str e).

Definition msg_input (h : string) : string :=
  ">>> Input Causador (hex): " +:+ h.

Definition msg_no_hex (v : pyval) : string :=
  "'" +:+ type_name v +:+ "' object has no attribute 'hex'".

(** [TestOneInput(data)]: the lines it prints and how it ends. A
    [ParsingError] is swallowed; [IndexError], [struct.error] and
    [TypeError] are printed with the input and raised again; anything else
    passes through. *)
Definition TestOneInput (data : pyval) : list string * harness_result :=
  match outcome (parse_packet data) with
  | Ok _ => ([], Returned)
  | Raise (ParsingError _) => ([], Returned)
  | Raise ((IndexError | StructError | TypeError _) as e) =>
      match py_hex data with
      | Some h => ([msg_unexpected e; msg_input h], Escaped (FromParser e))
      | None => ([msg_unexpected e], Escaped (AttributeError (msg_no_hex data)))
      end
  | Raise e => ([], Escaped (FromParser e))
  end.

(** ** The Python primitives *)

Section Primitives.

Lemma byte_val_range (b : byte) : 0 <= byte_val b < 256.
Proof.
  unfold byte_val. pose proof (Byte.to_N_bounded b). lia.
Qed.

Lemma len_nonneg {A} (l : list A) : 0 <= len l.
Proof. unfold len. lia. Qed.

Lemma len_app {A} (l k : list A) : len (l ++ k) = len l + len k.
Proof. unfold len. rewrite length_app. lia. Qed.

Lemma clip_id (n i : Z) : 0 <= i <= n -> clip n i = i.
Proof.
  intros H. unfold clip.
  destruct (Z.ltb_spec i 0); lia.
Qed.

Lemma slice_in_range {A} (l : list A) (lo hi : Z) :
  0 <= lo <= hi -> hi <= len l ->
  slice l lo hi = take (Z.to_nat (hi - lo)) (drop (Z.to_nat lo) l).
Proof.
  intros H1 H2. unfold slice.
  rewrite !clip_id by lia. reflexivity.
Qed.

Lemma slice_prefix {A} (l : list A) (hi : Z) :
  0 <= hi <= len l -> slice l 0 hi = take (Z.to_nat hi) l.
Proof.
  intros H. rewrite slice_in_range by lia.
  rewrite Z.sub_0_r. reflexivity.
Qed.

Lemma len_slice {A} (l : list A) (lo hi : Z) :
  0 <= lo <= hi -> hi <= len l -> len (slice l lo hi) = hi - lo.
Proof.
  intros H1 H2. rewrite slice_in_range by assumption.
  unfold len in *. rewrite length_take, length_drop. lia.
Qed.

Lemma index_in_range (bs : list byte) (i : Z) :
  0 <= i < len bs ->
  exists b, bs !! Z.to_nat i = Some b /\ index bs i = Ok (byte_val b).
Proof.
  intros H. unfold index.
  destruct (Z.ltb_spec i 0); [lia|].
  destruct (Z.ltb_spec i 0); [lia|].
  destruct (Z.leb_spec (len bs) i); [lia|]. cbn [orb].
  destruct (lookup_lt_is_Some_2 bs (Z.to_nat i)) as [b Hb].
  { unfold len in H. lia. }
  exists b. rewrite Hb. split; reflexivity.
Qed.

Lemma index_Ok_inv (bs : list byte) (i v : Z) :
  0 <= i -> index bs i = Ok v ->
  i < len bs /\ exists b, bs !! Z.to_nat i = Some b /\ v = byte_val b.
Proof.
  intros Hi. unfold index.
  destruct (Z.ltb_spec i 0); [lia|].
  destruct (Z.ltb_spec i 0); [lia|].
  destruct (Z.leb_spec (len bs) i); cbn [orb]; [discriminate|].
  destruct (bs !! Z.to_nat i) as [b|]; [|discriminate].
  intros [= <-]. split; [lia|]. exists b. split; reflexivity.
Qed.

Lemma unpack_H_two (hi lo : byte) :
  unpack_H [hi; lo] = Ok (byte_val hi * 256 + byte_val lo).
Proof. reflexivity. Qed.

Lemma unpack_H_range (buf : list byte) (v : Z) :
  unpack_H buf = Ok v -> 0 <= v <= 65535.
Proof.
  destruct buf as [|hi [|lo [|? ?]]]; try discriminate.
  intros [= <-].
  pose proof (byte_val_range hi). pose proof (byte_val_range lo). lia.
Qed.

End Primitives.

(** ** Running the monad *)

Section Monad.

Context {B : Type}.
Implicit Types (k : list byte -> M B) (h : Z -> M B).

Lemma bind_read_slice data lo hi k t r :
  k (slice data lo hi) = (t, r) ->
  bind (read_slice data lo hi) k = (ReadSlice lo hi :: t, r).
Proof. intros H. unfold bind. cbn. rewrite H. reflexivity. Qed.

Lemma bind_read_index data i v h t r :
  index data i = Ok v -> h v = (t, r) ->
  bind (read_index data i) h = (ReadIndex i :: t, r).
Proof. intros Hv H. unfold bind. cbn. rewrite Hv, H. reflexivity. Qed.

Lemma bind_lift {A} (x : result A) (v : A) (g : A -> M B) :
  x = Ok v -> bind (lift x) g = g v.
Proof. intros ->. unfold bind. cbn. destruct (g v); reflexivity. Qed.

Lemma outcome_bind {A} (m : M A) (g : A -> M B) :
  outcome (bind m g) =
  match outcome m with
  | Ok a => outcome (g a)
  | Raise e => Raise e
  end.
Proof. unfold bind. destruct (outcome m); reflexivity. Qed.

End Monad.

Arguments slice : simpl never.
Arguments index : simpl never.
Arguments unpack_H : simpl never.
Arguments calculate_checksum : simpl never.
Arguments packet_dict : simpl never.
Arguments msg_insufficient_header : simpl never.
Arguments msg_invalid_magic : simpl never.
Arguments msg_unknown_type : simpl never.
Arguments msg_insufficient_body : simpl never.
Arguments msg_checksum_mismatch : simpl never.
Arguments msg_empty_command_payload : simpl never.
Arguments len : simpl never.


(** ** Tactics *)

Ltac run_reads :=
  repeat (cbv beta zeta;
          first [ apply bind_read_slice
                | eapply bind_read_index; [eassumption|]
                | erewrite bind_lift by eassumption ]).

Ltac decide_cond c :=
  lazymatch c with
  | negb ?c' => decide_cond c'
  | orb ?c1 _ => decide_cond c1
  | Z.ltb ?a ?b => destruct (Z.ltb_spec a b); try lia
  | Z.eqb ?a ?b => destruct (Z.eqb_spec a b); try lia
  | bool_decide ?P =>
      first [ rewrite (bool_decide_eq_true_2 P) by assumption
            | rewrite (bool_decide_eq_false_2 P) by assumption ]
  end.

(** [header_ok] on a concrete buffer. *)
Ltac concrete_header :=
  unfold header_ok; split_and!;
  [ vm_compute; discriminate | reflexivity | reflexivity | set_solver
  | reflexivity ].

Ltac decide_test :=
  lazymatch goal with
  | |- (if ?c then _ else _) = _ => decide_cond c
  end; cbn [negb orb].

(** ** The header *)

Section Header.

Lemma header_bytes (data : list byte) :
  5 <= len data ->
  exists b0 b1 b2 b3 b4 rest, data = b0 :: b1 :: b2 :: b3 :: b4 :: rest.
Proof.
  intros H.
  destruct data as [|b0 [|b1 [|b2 [|b3 [|b4 rest]]]]];
    try (unfold len in H; simpl in H; lia).
  eauto 10.
Qed.

Lemma header_fields (data : list byte) :
  5 <= len data ->
  exists m t n,
    magic_field data = Ok m /\ type_field data = Ok t /\
    length_field data = Ok n /\ 0 <= t < 256 /\ 0 <= n <= 65535.
Proof.
  intros H. destruct (header_bytes data H) as (b0&b1&b2&b3&b4&rest&->).
  exists (byte_val b0 * 256 + byte_val b1), (byte_val b2),
         (byte_val b3 * 256 + byte_val b4).
  unfold magic_field, length_field, type_field.
  rewrite !slice_in_range by lia.
  destruct (index_in_range (b0 :: b1 :: b2 :: b3 :: b4 :: rest) 2)
    as (b & Hb & ->); [lia|].
  injection Hb as ->.
  pose proof (byte_val_range b).
  pose proof (byte_val_range b3). pose proof (byte_val_range b4).
  repeat split; try reflexivity; lia.
Qed.

End Header.

(** ** The checks of [parse_packet], one after the other

    Each lemma gives the reads and the outcome of [parse_bytes] on a buffer
    that passes the checks before the one it is about. *)

Section Decode.

Variable data : list byte.

Lemma parse_short_header :
  len data < 5 ->
  parse_bytes data =
  ([], Raise (ParsingError (msg_insufficient_header (len data)))).
Proof. intros H. unfold parse_bytes. decide_test. reflexivity. Qed.

Hypothesis Hheader : 5 <= len data.

Variable magic : Z.
Hypothesis Hmagic : magic_field data = Ok magic.

Lemma parse_invalid_magic :
  magic <> MAGIC_NUMBER ->
  parse_bytes data =
  ([ReadSlice 0 2], Raise (ParsingError (msg_invalid_magic magic))).
Proof.
  intros H. unfold parse_bytes. decide_test. run_reads.
  decide_test. reflexivity.
Qed.

Hypothesis Hmagic_ok : magic = MAGIC_NUMBER.

Variable packet_type : Z.
Hypothesis Htype : type_field data = Ok packet_type.

Lemma parse_unknown_type :
  packet_type ∉ [0x01; 0x02; 0x03] ->
  parse_bytes data =
  ([ReadSlice 0 2; ReadIndex 2],
   Raise (ParsingError (msg_unknown_type packet_type))).
Proof.
  intros H. unfold parse_bytes. decide_test. run_reads.
  decide_test. run_reads. decide_test. reflexivity.
Qed.

Hypothesis Htype_ok : packet_type ∈ [0x01; 0x02; 0x03].

Variable payload_len : Z.
Hypothesis Hpayload_len : length_field data = Ok payload_len.

Lemma parse_insufficient_body :
  len data < 5 + payload_len + 1 ->
  parse_bytes data =
  (header_reads,
   Raise (ParsingError
            (msg_insufficient_body (5 + payload_len + 1) (len data)))).
Proof.
  intros H. unfold parse_bytes, header_reads. decide_test. run_reads.
  decide_test. run_reads. decide_test. run_reads.
  decide_test. reflexivity.
Qed.

Hypothesis Hbody : 5 + payload_len + 1 <= len data.

Variable actual_checksum : Z.
Hypothesis Hactual : checksum_field data payload_len = Ok actual_checksum.

Lemma parse_checksum_mismatch :
  calculate_checksum (covered_of data payload_len) <> actual_checksum ->
  parse_bytes data =
  (all_reads payload_len,
   Raise (ParsingError
            (msg_checksum_mismatch
               (calculate_checksum (covered_of data payload_len))
               actual_checksum))).
Proof.
  intros H. unfold parse_bytes, all_reads, header_reads. cbn [app].
  decide_test. run_reads.
  decide_test. run_reads. decide_test. run_reads.
  decide_test. run_reads.
  fold (covered_of data payload_len).
  decide_test. reflexivity.
Qed.

Hypothesis Hchecksum :
  calculate_checksum (covered_of data payload_len) = actual_checksum.

Lemma len_payload_of : len (payload_of data payload_len) = payload_len.
Proof.
  pose proof (unpack_H_range _ _ Hpayload_len).
  unfold payload_of. rewrite len_slice by lia. lia.
Qed.

Lemma parse_empty_command :
  packet_type = 0x02 -> payload_len = 0 ->
  parse_bytes data =
  (all_reads payload_len, Raise (ParsingError msg_empty_command_payload)).
Proof.
  intros Hcmd Hzero.
  unfold parse_bytes, all_reads, header_reads. cbn [app].
  decide_test. run_reads.
  decide_test. run_reads. decide_test. run_reads.
  decide_test. run_reads.
  fold (covered_of data payload_len).
  decide_test. decide_test. decide_test. reflexivity.
Qed.

Lemma parse_command :
  packet_type = 0x02 -> payload_len <> 0 ->
  exists code rest,
    payload_of data payload_len = code :: rest /\
    parse_bytes data =
    (all_reads payload_len,
     Ok (<["command_code" := PyInt (byte_val code)]>
           (packet_dict magic packet_type payload_len
                        (payload_of data payload_len) actual_checksum))).
Proof.
  intros Hcmd Hnonzero.
  pose proof len_payload_of as Hl.
  pose proof (unpack_H_range _ _ Hpayload_len).
  destruct (index_in_range (payload_of data payload_len) 0)
    as (code & Hcode & Hindex); [lia|].
  destruct (payload_of data payload_len) as [|code' rest] eqn:Hpayload;
    [discriminate|].
  injection Hcode as ->.
  exists code, rest. split; [reflexivity|].
  unfold parse_bytes, all_reads, header_reads. cbn [app].
  decide_test. run_reads.
  decide_test. run_reads. decide_test. run_reads.
  decide_test. run_reads.
  fold (covered_of data payload_len). fold (payload_of data payload_len).
  rewrite Hpayload.
  decide_test. decide_test. decide_test. decide_test.
  run_reads. reflexivity.
Qed.

Lemma parse_other :
  packet_type <> 0x02 ->
  parse_bytes data =
  (all_reads payload_len,
   Ok (packet_dict magic packet_type payload_len
                   (payload_of data payload_len) actual_checksum)).
Proof.
  intros Hother.
  unfold parse_bytes, all_reads, header_reads. cbn [app].
  decide_test. run_reads.
  decide_test. run_reads. decide_test. run_reads.
  decide_test. run_reads.
  fold (covered_of data payload_len).
  decide_test. decide_test. reflexivity.
Qed.

End Decode.


(** ** Every run of [parse_bytes] is one of the cases of [decoded] *)

Lemma checksum_field_in_range (data : list byte) (n : Z) :
  0 <= n -> 5 + n + 1 <= len data ->
  exists c, checksum_field data n = Ok c /\ 0 <= c < 256.
Proof.
  intros Hn Hlen.
  destruct (index_in_range data (5 + n)) as (b & _ & Hb); [lia|].
  exists (byte_val b). split; [exact Hb | apply byte_val_range].
Qed.

Lemma parse_bytes_decoded (data : list byte) :
  decoded data (parse_bytes data).
Proof.
  destruct (Z.lt_ge_cases (len data) 5) as [Hshort|Hlen].
  { rewrite parse_short_header by assumption. by constructor. }
  destruct (header_fields data Hlen) as (m & t & n & Hm & Ht & Hn & _ & Hr).
  destruct (decide (m = MAGIC_NUMBER)) as [->|Hmagic].
  2: { rewrite (parse_invalid_magic data Hlen m) by assumption.
       by constructor. }
  destruct (decide (t ∈ [0x01; 0x02; 0x03])) as [Hin|Hout].
  2: { rewrite (parse_unknown_type data Hlen _ Hm eq_refl t) by assumption.
       by constructor. }
  assert (Hhdr : header_ok data t n) by (by repeat split).
  destruct (Z.lt_ge_cases (len data) (5 + n + 1)) as [Hbody|Hbody].
  { rewrite (parse_insufficient_body data Hlen _ Hm eq_refl t Ht Hin n)
      by assumption.
    by econstructor. }
  destruct (checksum_field_in_range data n) as (c & Hc & _); [lia..|].
  assert (Hbok : body_ok data n c) by (by split).
  destruct (decide (calculate_checksum (covered_of data n) = c))
    as [Hsum|Hsum].
  2: { rewrite (parse_checksum_mismatch data Hlen _ Hm eq_refl t Ht Hin n
                  Hn Hbody c Hc Hsum).
       by econstructor. }
  destruct (decide (t = 0x02)) as [->|Hother].
  2: { rewrite (parse_other data Hlen _ Hm eq_refl t Ht Hin n Hn Hbody c Hc
                  Hsum Hother).
       by constructor. }
  destruct (decide (n = 0)) as [->|Hnonzero].
  { rewrite (parse_empty_command data Hlen _ Hm eq_refl _ Ht Hin 0 Hn Hbody
               c Hc Hsum eq_refl eq_refl).
    by econstructor. }
  destruct (parse_command data Hlen _ Hm eq_refl _ Ht Hin n Hn Hbody c Hc
              Hsum eq_refl Hnonzero) as (code & rest & Hpayload & ->).
  rewrite Hpayload. by econstructor.
Qed.

(** ** The checksum *)

Section Checksum.

Lemma calculate_checksum_snoc (l : list byte) (b : byte) :
  calculate_checksum (l ++ [b]) =
  Z.lxor (calculate_checksum l) (byte_val b).
Proof. unfold calculate_checksum. rewrite fold_left_app. reflexivity. Qed.

Lemma fold_lxor_acc (l : list byte) (acc : Z) :
  fold_left (fun checksum b => Z.lxor checksum (byte_val b)) l acc =
  Z.lxor acc (xor_fold (byte_val <$> l)).
Proof.
  revert acc. induction l as [|b l IH]; intros acc; simpl.
  - rewrite Z.lxor_0_r. reflexivity.
  - rewrite IH, Z.lxor_assoc. reflexivity.
Qed.

Lemma calculate_checksum_xor_fold (l : list byte) :
  calculate_checksum l = xor_fold (byte_val <$> l).
Proof.
  unfold calculate_checksum. rewrite fold_lxor_acc.
  apply Z.lxor_0_l.
Qed.

Lemma lxor_byte_range (a b : Z) :
  0 <= a < 256 -> 0 <= b < 256 -> 0 <= Z.lxor a b < 256.
Proof.
  intros Ha Hb.
  assert (Hnn : 0 <= Z.lxor a b) by (apply Z.lxor_nonneg; lia).
  split; [exact Hnn|].
  destruct (Z.eq_dec (Z.lxor a b) 0) as [->|Hne]; [lia|].
  change 256 with (2 ^ 8). apply Z.log2_lt_pow2; [lia|].
  pose proof (Z.log2_lxor a b ltac:(lia) ltac:(lia)) as Hlog.
  assert (Hla : Z.log2 a < 8).
  { destruct (Z.eq_dec a 0) as [->|]; [reflexivity|].
    apply Z.log2_lt_pow2; [lia|]. change (2 ^ 8) with 256. lia. }
  assert (Hlb : Z.log2 b < 8).
  { destruct (Z.eq_dec b 0) as [->|]; [reflexivity|].
    apply Z.log2_lt_pow2; [lia|]. change (2 ^ 8) with 256. lia. }
  lia.
Qed.

Lemma calculate_checksum_range (l : list byte) :
  0 <= calculate_checksum l < 256.
Proof.
  induction l as [|b l IH] using rev_ind.
  - unfold calculate_checksum. simpl. lia.
  - rewrite calculate_checksum_snoc.
    apply lxor_byte_range; [exact IH | apply byte_val_range].
Qed.

Lemma byte_val_inj (a b : byte) : byte_val a = byte_val b -> a = b.
Proof.
  unfold byte_val. intros H. apply N2Z.inj in H.
  pose proof (Byte.of_to_N a) as Ha. rewrite H, Byte.of_to_N in Ha.
  congruence.
Qed.

Lemma byte_of_Z_in_range (z : Z) :
  0 <= z < 256 -> exists b, byte_of_Z z = Some b /\ byte_val b = z.
Proof.
  intros H. unfold byte_of_Z.
  destruct (Z.ltb_spec z 0); [lia|].
  destruct (Byte.of_N (Z.to_N z)) as [b|] eqn:Hb.
  - exists b. split; [reflexivity|].
    unfold byte_val. rewrite (@Byte.to_of_N _ _ Hb). lia.
  - apply Byte.of_N_None_iff in Hb. lia.
Qed.

End Checksum.

(** ** The dictionary of a decoded packet *)

Section Dict.

Variables (magic t n c : Z) (payload : list byte).

Lemma packet_dict_type :
  packet_dict magic t n payload c !! "type" = Some (PyInt t).
Proof. unfold packet_dict. by simplify_map_eq. Qed.

Lemma packet_dict_payload_len :
  packet_dict magic t n payload c !! "payload_len" = Some (PyInt n).
Proof. unfold packet_dict. by simplify_map_eq. Qed.

Lemma packet_dict_payload :
  packet_dict magic t n payload c !! "payload" = Some (PyBytes payload).
Proof. unfold packet_dict. by simplify_map_eq. Qed.

Lemma packet_dict_no_command_code :
  packet_dict magic t n payload c !! "command_code" = None.
Proof. unfold packet_dict. by simplify_map_eq. Qed.

Lemma command_dict_other (code : Z) (key : string) :
  key <> "command_code" ->
  <["command_code" := PyInt code]> (packet_dict magic t n payload c) !! key
  = packet_dict magic t n payload c !! key.
Proof. intros H. by rewrite lookup_insert_ne. Qed.

End Dict.

(** ** Successful runs *)

Lemma decoded_Ok_inv (data : list byte) (r : M (gmap string pyval))
    (d : gmap string pyval) :
  decoded data r -> outcome r = Ok d ->
  exists t n c,
    header_ok data t n /\ body_ok data n c /\
    calculate_checksum (covered_of data n) = c /\
    trace r = all_reads n /\
    d !! "type" = Some (PyInt t) /\
    d !! "payload_len" = Some (PyInt n) /\
    d !! "payload" = Some (PyBytes (payload_of data n)) /\
    (t = 0x02 ->
     exists code rest,
       payload_of data n = code :: rest /\
       d !! "command_code" = Some (PyInt (byte_val code))) /\
    (t <> 0x02 -> d !! "command_code" = None).
Proof.
  intros Hd Hok.
  destruct Hd as [| | | | | |n c code rest Hh Hb Hs Hn Hp|t n c Hh Hb Hs Ht];
    cbn [outcome snd] in Hok; try discriminate Hok; injection Hok as <-.
  - exists 0x02, n, c. rewrite Hp.
    split_and!; try done.
    intros _. exists code, rest. split; [done|]. apply lookup_insert_eq.
  - exists t, n, c. split_and!; done.
Qed.

Lemma parse_bytes_Ok_inv (data : list byte) (d : gmap string pyval) :
  outcome (parse_bytes data) = Ok d ->
  exists t n c,
    header_ok data t n /\ body_ok data n c /\
    calculate_checksum (covered_of data n) = c /\
    d !! "payload_len" = Some (PyInt n).
Proof.
  intros Hok.
  destruct (decoded_Ok_inv data _ d (parse_bytes_decoded data) Hok)
    as (t & n & c & Hh & Hb & Hs & _ & _ & Hn & _).
  by exists t, n, c.
Qed.

Lemma parse_bytes_Ok (data : list byte) (t n c : Z) :
  header_ok data t n -> body_ok data n c ->
  calculate_checksum (covered_of data n) = c ->
  (t = 0x02 -> n <> 0) ->
  exists d,
    parse_bytes data = (all_reads n, Ok d) /\
    d !! "type" = Some (PyInt t) /\
    d !! "payload_len" = Some (PyInt n) /\
    d !! "payload" = Some (PyBytes (payload_of data n)).
Proof.
  intros (Hlen & Hm & Ht & Hin & Hn) (Hbody & Hc) Hsum Hcmd.
  destruct (decide (t = 0x02)) as [->|Hother].
  - destruct (parse_command data Hlen _ Hm eq_refl _ Ht Hin n Hn Hbody c Hc
                Hsum eq_refl (Hcmd eq_refl))
      as (code & rest & Hpayload & ->).
    eexists. split; [reflexivity|].
    rewrite !command_dict_other by done.
    split_and!; [apply packet_dict_type | apply packet_dict_payload_len
                | apply packet_dict_payload].
  - rewrite (parse_other data Hlen _ Hm eq_refl t Ht Hin n Hn Hbody c Hc
               Hsum Hother).
    eexists. split; [reflexivity|].
    split_and!; [apply packet_dict_type | apply packet_dict_payload_len
                | apply packet_dict_payload].
Qed.

(** ** Overwriting one byte behind the header *)

Section Overwrite.

Variables (data : list byte) (i : nat) (b : byte).

Lemma len_insert : len (<[i := b]> data) = len data.
Proof. unfold len. by rewrite length_insert. Qed.

Lemma slice_insert_behind (lo hi : Z) :
0 <= lo -> 0 <= hi <= Z.of_nat i ->
slice (<[i := b]> data) lo hi = slice data lo hi.
Proof.
intros Hlo Hhi. unfold slice. rewrite len_insert.
pose proof (len_nonneg data).
assert (Hclo : 0 <= clip (len data) lo <= lo).
{ unfold clip. destruct (Z.ltb_spec lo 0); lia. }
assert (Hchi : clip (len data) hi <= Z.of_nat i).
{ unfold clip. destruct (Z.ltb_spec hi 0); unfold len in *; lia. }
destruct (Z.le_gt_cases (clip (len data) hi) (clip (len data) lo)).
- replace (Z.to_nat (clip (len data) hi - clip (len data) lo)) with O
    by lia.
  reflexivity.
- rewrite drop_insert_ge by lia. apply take_insert_ge. lia.
Qed.

Lemma index_insert_before (j : Z) :
0 <= j < Z.of_nat i -> index (<[i := b]> data) j = index data j.
Proof.
intros Hj. unfold index. rewrite len_insert.
destruct (Z.ltb_spec j 0); [lia|].
rewrite list_lookup_insert_ne by lia. reflexivity.
Qed.

Lemma index_insert_at :
Z.of_nat i < len data ->
index (<[i := b]> data) (Z.of_nat i) = Ok (byte_val b).
Proof.
intros Hi.
destruct (index_in_range (<[i := b]> data) (Z.of_nat i))
  as (b' & Hb' & ->); [rewrite len_insert; lia|].
rewrite Nat2Z.id, list_lookup_insert_eq in Hb' by (unfold len in Hi; lia).
by injection Hb' as <-.
Qed.

Lemma header_ok_insert (t n : Z) :
(5 <= i)%nat -> header_ok data t n -> header_ok (<[i := b]> data) t n.
Proof.
intros Hi (Hlen & Hm & Ht & Hin & Hn).
unfold header_ok, magic_field, type_field, length_field.
rewrite len_insert, !slice_insert_behind, index_insert_before by lia.
done.
Qed.

End Overwrite.

(** ** Packets laid out as the wire format says *)

Section Wire.

Variables (tb hi lo cb : byte) (payload : list byte).

Let head : list byte := [xca; xfe; tb; hi; lo].
Let wire : list byte := head ++ payload ++ [cb].

Hypothesis Hlength : byte_val hi * 256 + byte_val lo = len payload.

Lemma len_wire : len wire = 5 + len payload + 1.
Proof.
unfold wire, head. rewrite !len_app. unfold len. simpl length. lia.
Qed.

Lemma wire_covered : covered_of wire (len payload) = head ++ payload.
Proof.
pose proof len_wire. pose proof (len_nonneg payload).
unfold covered_of. rewrite slice_prefix by lia.
replace (Z.to_nat (5 + len payload)) with (length (head ++ payload))
  by (rewrite length_app; unfold len, head; simpl length; lia).
unfold wire. rewrite (assoc_L (++)). apply take_app_length.
Qed.

Lemma wire_payload : payload_of wire (len payload) = payload.
Proof.
pose proof len_wire. pose proof (len_nonneg payload).
unfold payload_of. rewrite slice_in_range by lia.
replace (Z.to_nat (5 + len payload - 5)) with (length payload)
  by (unfold len; lia).
change (Z.to_nat 5) with (length head).
unfold wire. rewrite drop_app_length. apply take_app_length.
Qed.

Lemma wire_checksum_field :
checksum_field wire (len payload) = Ok (byte_val cb).
Proof.
pose proof len_wire. pose proof (len_nonneg payload).
destruct (index_in_range wire (5 + len payload)) as (b & Hb & Hi);
  [lia|].
unfold checksum_field. rewrite Hi. f_equal. f_equal.
replace (Z.to_nat (5 + len payload)) with (length (head ++ payload))
  in Hb by (rewrite length_app; unfold len, head; simpl length; lia).
unfold wire in Hb. rewrite (assoc_L (++)), list_lookup_middle in Hb by done.
by injection Hb.
Qed.

Lemma wire_header_ok :
byte_val tb ∈ [0x01; 0x02; 0x03] ->
header_ok wire (byte_val tb) (len payload).
Proof.
intros Hin. pose proof len_wire. pose proof (len_nonneg payload).
unfold header_ok, magic_field, type_field, length_field.
rewrite !slice_in_range by lia.
destruct (index_in_range wire 2) as (b & Hb & ->); [lia|].
injection Hb as <-.
split_and!; [lia | reflexivity | reflexivity | exact Hin |].
change (unpack_H [hi; lo] = Ok (len payload)).
rewrite unpack_H_two. by f_equal.
Qed.

Lemma wire_body_ok : body_ok wire (len payload) (byte_val cb).
Proof.
split; [rewrite len_wire; lia | apply wire_checksum_field].
Qed.

End Wire.

(** ** What [build_packet] returns *)

Lemma pack_H_in_range (z : Z) :
  0 <= z <= 65535 ->
  exists hi lo,
    pack_H z = Ok [hi; lo] /\ byte_val hi * 256 + byte_val lo = z.
Proof.
  intros H. unfold pack_H.
  destruct (Z.ltb_spec z 0); [lia|].
  destruct (Z.ltb_spec 65535 z); [lia|]. cbn [orb].
  destruct (byte_of_Z_in_range (z / 256)) as (hi & -> & Hhi).
  { split; [apply Z.div_pos; lia | apply Z.div_lt_upper_bound; lia]. }
  destruct (byte_of_Z_in_range (z mod 256)) as (lo & -> & Hlo).
  { apply Z.mod_pos_bound. lia. }
  exists hi, lo. split; [reflexivity|].
  rewrite Hhi, Hlo. pose proof (Z.div_mod z 256). lia.
Qed.

Lemma build_packet_wire (packet_type : Z) (payload : list byte) :
  0 <= packet_type < 256 -> len payload <= 65535 ->
  exists tb hi lo cb,
    build_packet packet_type payload =
      Ok ([xca; xfe; tb; hi; lo] ++ payload ++ [cb]) /\
    byte_val tb = packet_type /\
    byte_val hi * 256 + byte_val lo = len payload /\
    byte_val cb = calculate_checksum ([xca; xfe; tb; hi; lo] ++ payload).
Proof.
  intros Ht Hlen. pose proof (len_nonneg payload).
  destruct (byte_of_Z_in_range packet_type Ht) as (tb & Htb & Hvt).
  destruct (pack_H_in_range (len payload)) as (hi & lo & Hpack & Hv);
    [lia|].
  destruct (byte_of_Z_in_range
              (calculate_checksum ([xca; xfe; tb; hi; lo] ++ payload))
              (calculate_checksum_range _)) as (cb & Hcb & Hvc).
  exists tb, hi, lo, cb.
  split; [|by split_and!].
  unfold build_packet, pack_B, bytes_of_int.
  change (pack_H MAGIC_NUMBER) with (@Ok (list byte) [xca; xfe]).
  rewrite Htb, Hpack. cbn [app]. cbn [app] in Hcb. rewrite Hcb.
  reflexivity.
Qed.

(** ** Properties of [parse_packet] *)

(** C1. On every [bytes] input, [parse_packet] either returns the dictionary
    of a decoded packet or raises a [ParsingError]; it raises no
    [IndexError], no [struct.error] and no other exception, whatever the
    length and the content of the buffer. *)
Theorem parse_packet_bytes_safe (data : list byte) :
  (exists d, outcome (parse_packet (PyBytes data)) = Ok d) \/
  (exists msg, outcome (parse_packet (PyBytes data)) = Raise (ParsingError msg)).
Proof.
  cbn [parse_packet].
  destruct (parse_bytes_decoded data); cbn [outcome snd]; eauto.
Qed.

(** C2, as stated, fails: the error of a wrong-typed input is not a
    categorized one. On the string "CAFE", which is not [bytes],
    [parse_packet] raises no categorized error. *)
Lemma non_bytes_error_not_categorized :
  isinstance_bytes (PyStr "CAFE") = false /\
  ~ (exists e,
       outcome (parse_packet (PyStr "CAFE")) = Raise e /\
       categorized e = true).
Proof.
  split; [reflexivity|].
  intros (e & He & Hcat). cbn in He. injection He as <-. discriminate Hcat.
Qed.

(** C2, amended. On every input that is not [bytes], [parse_packet] raises
    the builtin [TypeError] of its first statement, an exception of a kind
    of its own (no [ParsingError], so not a categorized error), and it does
    so before any read of the input. *)
Theorem parse_packet_rejects_non_bytes (v : pyval) :
  isinstance_bytes v = false ->
  parse_packet v = ([], Raise (TypeError "Entrada deve ser bytes")) /\
  (forall msg, outcome (parse_packet v) <> Raise (ParsingError msg)) /\
  trace (parse_packet v) = [].
Proof.
  intros H. destruct v; try discriminate H; cbn; repeat split; discriminate.
Qed.

Lemma parse_packet_rejects_non_bytes_witness :
  isinstance_bytes (PyStr "CAFE") = false /\
  parse_packet (PyStr "CAFE") = ([], Raise (TypeError "Entrada deve ser bytes")).
Proof.
  split; [reflexivity|].
  apply (parse_packet_rejects_non_bytes (PyStr "CAFE")). reflexivity.
Defined.



(** C4. On every buffer with a full header, the right magic number and a
    known type, whose declared payload length [n] asks for more bytes than
    the buffer has ([len(data) < 5 + n + 1]), [parse_packet] raises the
    [ParsingError] for an insufficient body, whose message carries exactly
    [5 + n + 1] as the expected length and [len(data)] as the received one;
    up to there it has read the header only, no payload byte and no
    checksum byte. *)
Theorem parse_packet_insufficient_body (data : list byte) (t n : Z) :
  header_ok data t n -> len data < 5 + n + 1 ->
  outcome (parse_packet (PyBytes data)) =
    Raise (ParsingError (msg_insufficient_body (5 + n + 1) (len data))) /\
  trace (parse_packet (PyBytes data)) = header_reads /\
  Forall within_header (trace (parse_packet (PyBytes data))).
Proof.
  intros (Hlen & Hm & Ht & Hin & Hn) Hshort. cbn [parse_packet].
  rewrite (parse_insufficient_body data Hlen _ Hm eq_refl t Ht Hin n Hn Hshort).
  repeat split; cbn [trace fst header_reads].
  repeat constructor; cbn; lia.
Qed.

Lemma parse_packet_insufficient_body_witness :
  outcome (parse_packet (PyBytes [xca; xfe; x01; xff; xff; x41])) =
    Raise (ParsingError
      "Dados insuficientes para payload e checksum. Esperado: 65541, Recebido: 6").
Proof.
  refine (proj1 (parse_packet_insufficient_body
                   [xca; xfe; x01; xff; xff; x41] 1 65535 _ _)).
  - concrete_header.
  - reflexivity.
Defined.



(** C6. Round trip: for a packet type in {1, 2, 3} and a payload of at most
    65535 bytes (not empty for a CMD), the packet is built without error
    and is the buffer CA FE, the type byte, the payload length as two bytes
    (high byte first), the payload, and one last byte equal to the XOR-fold
    from 0 of all the bytes before it; [parse_packet] decodes it to a
    dictionary with the same type, payload length and payload. *)
Theorem build_parse_roundtrip (packet_type : Z) (payload : list byte) :
  packet_type ∈ [0x01; 0x02; 0x03] ->
  len payload <= 65535 ->
  (packet_type = 0x02 -> payload <> []) ->
  exists tb hi lo cb d,
    build_packet packet_type payload =
      Ok ([xca; xfe; tb; hi; lo] ++ payload ++ [cb]) /\
    byte_val tb = packet_type /\
    byte_val hi = len payload / 256 /\
    byte_val lo = len payload mod 256 /\
    byte_val cb =
      xor_fold (byte_val <$> ([xca; xfe; tb; hi; lo] ++ payload)) /\
    outcome (parse_packet
               (PyBytes ([xca; xfe; tb; hi; lo] ++ payload ++ [cb]))) = Ok d /\
    d !! "type" = Some (PyInt packet_type) /\
    d !! "payload_len" = Some (PyInt (len payload)) /\
    d !! "payload" = Some (PyBytes payload).
Proof.
  intros Hin Hlen Hcmd.
  assert (Ht : 0 <= packet_type < 256) by (set_unfold; lia).
  destruct (build_packet_wire packet_type payload Ht Hlen)
    as (tb & hi & lo & cb & Hbuild & Hvt & Hvl & Hvc).
  destruct (parse_bytes_Ok ([xca; xfe; tb; hi; lo] ++ payload ++ [cb])
              packet_type (len payload) (byte_val cb))
    as (d & Hrun & Htype & Hplen & Hpayload).
  - rewrite <- Hvt. apply wire_header_ok; [exact Hvl | by rewrite Hvt].
  - apply wire_body_ok.
  - rewrite wire_covered. by symmetry.
  - intros Hc Hzero. apply (Hcmd Hc).
    destruct payload; [reflexivity | discriminate Hzero].
  - exists tb, hi, lo, cb, d.
    pose proof (byte_val_range hi). pose proof (byte_val_range lo).
    cbn [parse_packet]. rewrite Hrun, wire_payload in *.
    split_and!; try done.
    + apply (Z.div_unique _ _ _ (byte_val lo)); lia.
    + apply (Z.mod_unique _ _ (byte_val hi)); lia.
    + by rewrite Hvc, calculate_checksum_xor_fold.
Qed.

Lemma build_parse_roundtrip_witness :
  exists tb hi lo cb d,
    build_packet 0x01 (String.list_byte_of_string "Hello Fuzzing!") =
      Ok ([xca; xfe; tb; hi; lo]
            ++ String.list_byte_of_string "Hello Fuzzing!" ++ [cb]) /\
    byte_val tb = 0x01 /\
    byte_val hi = len (String.list_byte_of_string "Hello Fuzzing!") / 256 /\
    byte_val lo = len (String.list_byte_of_string "Hello Fuzzing!") mod 256 /\
    byte_val cb =
      xor_fold (byte_val <$>
                  ([xca; xfe; tb; hi; lo]
                     ++ String.list_byte_of_string "Hello Fuzzing!")) /\
    outcome (parse_packet
               (PyBytes ([xca; xfe; tb; hi; lo]
                           ++ String.list_byte_of_string "Hello Fuzzing!"
                           ++ [cb]))) = Ok d /\
    d !! "type" = Some (PyInt 0x01) /\
    d !! "payload_len" =
      Some (PyInt (len (String.list_byte_of_string "Hello Fuzzing!"))) /\
    d !! "payload" =
      Some (PyBytes (String.list_byte_of_string "Hello Fuzzing!")).
Proof.
  apply (build_parse_roundtrip 0x01
           (String.list_byte_of_string "Hello Fuzzing!")).
  - set_solver.
  - vm_compute. discriminate.
  - discriminate.
Defined.

(** C7. If [parse_packet] decodes a buffer, with payload length [n], then
    the same buffer with the byte at offset [5 + n] (the checksum) replaced
    by any other byte is rejected with the [ParsingError] for a checksum
    mismatch: the expected value is the old checksum byte, the actual one
    the new byte. *)
Theorem checksum_byte_mutation (data : list byte) (d : gmap string pyval)
    (n : Z) (old b : byte) :
  outcome (parse_packet (PyBytes data)) = Ok d ->
  d !! "payload_len" = Some (PyInt n) ->
  data !! Z.to_nat (5 + n) = Some old ->
  b <> old ->
  outcome (parse_packet (PyBytes (<[Z.to_nat (5 + n) := b]> data))) =
    Raise (ParsingError
             (msg_checksum_mismatch (byte_val old) (byte_val b))).
Proof.
  cbn [parse_packet]. intros Hok Hn Hold Hne.
  destruct (parse_bytes_Ok_inv data d Hok)
    as (t & n' & c & Hh & (Hbody & Hc) & Hsum & Hn').
  rewrite Hn' in Hn. injection Hn as ->.
  pose proof Hh as (Hlen & Hm & Ht & Hin & Hl).
  pose proof (unpack_H_range _ _ Hl) as Hrange.
  apply index_Ok_inv in Hc as (_ & old' & Hold' & ->); [|lia].
  rewrite Hold in Hold'. injection Hold' as <-.
  set (i := Z.to_nat (5 + n)) in *.
  destruct (header_ok_insert data i b t n ltac:(lia) Hh)
    as (Hlen' & Hm' & Ht' & _ & Hl').
  assert (Hcov : covered_of (<[i := b]> data) n = covered_of data n).
  { unfold covered_of. apply slice_insert_behind; lia. }
  assert (Hc' : checksum_field (<[i := b]> data) n = Ok (byte_val b)).
  { unfold checksum_field. replace (5 + n) with (Z.of_nat i) by lia.
    apply index_insert_at. lia. }
  rewrite (parse_checksum_mismatch _ Hlen' _ Hm' eq_refl t Ht' Hin n Hl'
             ltac:(rewrite len_insert; lia) _ Hc').
  - cbn [outcome snd]. by rewrite Hcov, Hsum.
  - rewrite Hcov, Hsum. intros Heq. apply Hne. symmetry.
    by apply byte_val_inj.
Qed.

Lemma checksum_byte_mutation_witness :
  outcome (parse_packet (PyBytes [xca; xfe; x01; x00; x01; x41; x75])) =
    Ok (packet_dict MAGIC_NUMBER 1 1 [x41] 0x75) /\
  outcome (parse_packet (PyBytes [xca; xfe; x01; x00; x01; x41; x00])) =
    Raise (ParsingError "Checksum inválido. Esperado: 0x75, Recebido: 0x0").
Proof.
  split; [reflexivity|].
  refine (checksum_byte_mutation [xca; xfe; x01; x00; x01; x41; x75]
            (packet_dict MAGIC_NUMBER 1 1 [x41] 0x75) 1 x75 x00 _ _ _ _).
  - reflexivity.
  - reflexivity.
  - reflexivity.
  - discriminate.
Defined.

(** C8. A CMD packet (type 0x02) that declares a payload length of 0 and
    passes the magic, type, total length and checksum checks is rejected
    with the [ParsingError] for an empty command payload, raised by the
    guard before [payload[0]], so no [IndexError] occurs; and the
    dictionary of every decoded CMD packet has a [command_code] equal to
    the first byte of its payload. *)
Theorem command_payload (data : list byte) :
  (forall c,
     header_ok data 0x02 0 -> body_ok data 0 c ->
     calculate_checksum (covered_of data 0) = c ->
     outcome (parse_packet (PyBytes data)) =
       Raise (ParsingError msg_empty_command_payload)) /\
  (forall d,
     outcome (parse_packet (PyBytes data)) = Ok d ->
     d !! "type" = Some (PyInt 0x02) ->
     exists code rest,
       d !! "payload" = Some (PyBytes (code :: rest)) /\
       d !! "command_code" = Some (PyInt (byte_val code))).
Proof.
  cbn [parse_packet]. split.
  - intros c (Hlen & Hm & Ht & Hin & Hn) (Hbody & Hc) Hsum.
    by rewrite (parse_empty_command data Hlen _ Hm eq_refl _ Ht Hin 0 Hn
                  Hbody c Hc Hsum eq_refl eq_refl).
  - intros d Hok Htype.
    destruct (decoded_Ok_inv data _ d (parse_bytes_decoded data) Hok)
      as (t & n & c & _ & _ & _ & _ & Ht & _ & Hp & Hcmd & _).
    rewrite Ht in Htype. injection Htype as ->.
    destruct (Hcmd eq_refl) as (code & rest & Hpayload & Hcode).
    exists code, rest. by rewrite Hp, Hpayload.
Qed.

Lemma command_payload_witness :
  outcome (parse_packet (PyBytes [xca; xfe; x02; x00; x00; x36])) =
    Raise (ParsingError "Tamanho de pacote insuficiente") /\
  exists code rest,
    packet_dict MAGIC_NUMBER 2 1 [x07] 0x30 !! "payload" =
      Some (PyBytes (code :: rest)) /\
    <["command_code" := PyInt 7]> (packet_dict MAGIC_NUMBER 2 1 [x07] 0x30)
      !! "command_code" = Some (PyInt (byte_val code)).
Proof.
  split.
  - apply (proj1 (command_payload [xca; xfe; x02; x00; x00; x36]) 0x36).
    + concrete_header.
    + split; [vm_compute; discriminate | reflexivity].
    + reflexivity.
  - destruct (proj2 (command_payload [xca; xfe; x02; x00; x01; x07; x30])
                (<["command_code" := PyInt 7]>
                   (packet_dict MAGIC_NUMBER 2 1 [x07] 0x30)))
      as (code & rest & Hp & Hc).
    + reflexivity.
    + reflexivity.
    + exists code, rest. split; [exact Hp | exact Hc].
Defined.

(** C9. No maximum payload size is enforced. A buffer that passes the
    magic, type, total length and checksum checks and declares a payload
    length above [MAX_PAYLOAD_SIZE] (1024; the length field allows up to
    65535) is decoded; and on no buffer does [parse_packet] raise the
    error of the size check, which is commented out in the source. *)
Theorem no_payload_size_limit (data : list byte) :
  (forall t n c,
     header_ok data t n -> body_ok data n c ->
     calculate_checksum (covered_of data n) = c ->
     MAX_PAYLOAD_SIZE < n ->
     n <= 65535 /\
     exists d,
       outcome (parse_packet (PyBytes data)) = Ok d /\
       d !! "payload_len" = Some (PyInt n)) /\
  (forall n,
     outcome (parse_packet (PyBytes data)) <>
       Raise (ParsingError (msg_payload_too_large n))).
Proof.
  cbn [parse_packet]. split.
  - intros t n c Hh Hb Hsum Hbig.
    pose proof Hh as (_ & _ & _ & _ & Hn).
    split; [apply (unpack_H_range _ _ Hn)|].
    destruct (parse_bytes_Ok data t n c Hh Hb Hsum)
      as (d & -> & _ & Hplen & _).
    { unfold MAX_PAYLOAD_SIZE in Hbig. lia. }
    by exists d.
  - intros n.
    destruct (parse_bytes_decoded data); cbn [outcome snd];
      try discriminate; intros [= Hmsg]; revert Hmsg;
      unfold msg_payload_too_large, msg_insufficient_header,
        msg_invalid_magic, msg_unknown_type, msg_insufficient_body,
        msg_checksum_mismatch, msg_empty_command_payload;
      cbn [String.append]; discriminate.
Qed.

Lemma no_payload_size_limit_witness :
  exists d,
    outcome (parse_packet (PyBytes oversized_packet)) = Ok d /\
    d !! "payload_len" = Some (PyInt 1025).
Proof.
  refine (proj2 (proj1 (no_payload_size_limit oversized_packet)
                   0x01 1025 0x30 _ _ _ _)).
  - concrete_header.
  - split; [vm_compute; discriminate | vm_compute; reflexivity].
  - vm_compute. reflexivity.
  - reflexivity.
Defined.

(** C10. When [parse_packet] decodes a buffer, with payload length [n], the
    XOR-fold from 0 of the whole packet, the first [5 + n + 1] bytes of the
    buffer with the checksum byte included, is 0; these bytes are the
    slice [data[0 : 5 + n + 1]], and [calculate_checksum] of them is 0 as
    well. *)
Theorem checksum_of_whole_packet (data : list byte)
    (d : gmap string pyval) (n : Z) :
  outcome (parse_packet (PyBytes data)) = Ok d ->
  d !! "payload_len" = Some (PyInt n) ->
  xor_fold (byte_val <$> take (Z.to_nat (5 + n + 1)) data) = 0 /\
  slice data 0 (5 + n + 1) = take (Z.to_nat (5 + n + 1)) data /\
  calculate_checksum (slice data 0 (5 + n + 1)) = 0.
Proof.
  cbn [parse_packet]. intros Hok Hn.
  destruct (parse_bytes_Ok_inv data d Hok)
    as (t & n' & c & Hh & (Hbody & Hc) & Hsum & Hn').
  rewrite Hn' in Hn. injection Hn as ->.
  pose proof Hh as (_ & _ & _ & _ & Hl).
  pose proof (unpack_H_range _ _ Hl) as Hrange.
  apply index_Ok_inv in Hc as (_ & b & Hb & ->); [|lia].
  assert (Hzero :
    calculate_checksum (take (Z.to_nat (5 + n + 1)) data) = 0).
  { replace (Z.to_nat (5 + n + 1)) with (S (Z.to_nat (5 + n))) by lia.
    rewrite (take_S_r _ _ _ Hb), calculate_checksum_snoc.
    unfold covered_of in Hsum. rewrite slice_prefix in Hsum by lia.
    rewrite Hsum. apply Z.lxor_nilpotent. }
  rewrite slice_prefix by lia.
  split_and!; [|reflexivity|exact Hzero].
  by rewrite <- calculate_checksum_xor_fold.
Qed.

Lemma checksum_of_whole_packet_witness :
  xor_fold
    (byte_val <$>
       take (Z.to_nat (5 + 1 + 1))
         [xca; xfe; x01; x00; x01; x41; x75; xff]) = 0.
Proof.
  apply (checksum_of_whole_packet [xca; xfe; x01; x00; x01; x41; x75; xff]
           (packet_dict MAGIC_NUMBER 1 1 [x41] 0x75) 1).
  - reflexivity.
  - reflexivity.
Defined.

(** * Further properties *)

(** ** The other checks of [parse_packet] *)

Lemma magic_bytes (b0 b1 : byte) :
  byte_val b0 * 256 + byte_val b1 = MAGIC_NUMBER <-> b0 = xca /\ b1 = xfe.
Proof.
  split.
  - intros H. pose proof (byte_val_range b0). pose proof (byte_val_range b1).
    unfold MAGIC_NUMBER in H.
    split; apply byte_val_inj.
    + change (byte_val xca) with 202. lia.
    + change (byte_val xfe) with 254. lia.
  - intros [-> ->]. reflexivity.
Qed.

Lemma magic_field_cons (b0 b1 : byte) (rest : list byte) :
  magic_field (b0 :: b1 :: rest) = Ok (byte_val b0 * 256 + byte_val b1).
Proof.
  unfold magic_field.
  assert (2 <= len (b0 :: b1 :: rest)).
  { pose proof (len_nonneg rest). unfold len in *. simpl length. lia. }
  rewrite slice_in_range by lia. reflexivity.
Qed.

Lemma type_field_cons (b0 b1 b2 : byte) (rest : list byte) :
  type_field (b0 :: b1 :: b2 :: rest) = Ok (byte_val b2).
Proof.
  unfold type_field.
  destruct (index_in_range (b0 :: b1 :: b2 :: rest) 2) as (b & Hb & ->).
  { pose proof (len_nonneg rest). unfold len in *. simpl length. lia. }
  by injection Hb as ->.
Qed.

(** X1. A buffer of at least 5 bytes whose first two bytes are not CA FE is
    rejected with the [ParsingError] for an invalid magic number, carrying
    the value read; only [data[0:2]] is read, so neither the type, nor the
    length field, nor the rest of the buffer has any influence. *)
Theorem parse_packet_invalid_magic (b0 b1 : byte) (rest : list byte) :
  3 <= len rest ->
  b0 <> xca \/ b1 <> xfe ->
  parse_packet (PyBytes (b0 :: b1 :: rest)) =
    ([ReadSlice 0 2],
     Raise (ParsingError
              (msg_invalid_magic (byte_val b0 * 256 + byte_val b1)))).
Proof.
  intros Hlen Hbad. cbn [parse_packet].
  apply parse_invalid_magic.
  - unfold len in *. simpl length. lia.
  - apply magic_field_cons.
  - intros Hm. apply magic_bytes in Hm as [-> ->]. by destruct Hbad.
Qed.

Lemma parse_packet_invalid_magic_witness :
  parse_packet (PyBytes [x00; x0e; x09; xff; xff]) =
    ([ReadSlice 0 2], Raise (ParsingError "Magic number inválido: 0x0e")).
Proof.
  apply (parse_packet_invalid_magic x00 x0e [x09; xff; xff]).
  - vm_compute. discriminate.
  - left. discriminate.
Defined.

(** X2. A buffer of at least 5 bytes that starts with CA FE and whose third
    byte is not 1, 2 or 3 is rejected with the [ParsingError] for an unknown
    type, carrying that byte; only [data[0:2]] and [data[2]] are read, so
    the length field and the rest of the buffer have no influence. *)
Theorem parse_packet_unknown_type (tb : byte) (rest : list byte) :
  2 <= len rest ->
  byte_val tb ∉ [0x01; 0x02; 0x03] ->
  parse_packet (PyBytes (xca :: xfe :: tb :: rest)) =
    ([ReadSlice 0 2; ReadIndex 2],
     Raise (ParsingError (msg_unknown_type (byte_val tb)))).
Proof.
  intros Hlen Hbad. cbn [parse_packet].
  assert (Hfive : 5 <= len (xca :: xfe :: tb :: rest))
    by (unfold len in *; simpl length; lia).
  apply (parse_unknown_type _ Hfive MAGIC_NUMBER
           (magic_field_cons xca xfe _) eq_refl).
  - apply type_field_cons.
  - exact Hbad.
Qed.

Lemma parse_packet_unknown_type_witness :
  parse_packet (PyBytes [xca; xfe; x05; xff; xff]) =
    ([ReadSlice 0 2; ReadIndex 2],
     Raise (ParsingError "Tipo de pacote desconhecido: 0x5")).
Proof.
  apply (parse_packet_unknown_type x05 [xff; xff]).
  - vm_compute. discriminate.
  - apply (bool_decide_unpack _). vm_compute. exact I.
Defined.

(** X3. Whatever the buffer, every slice and every index [parse_packet]
    takes of it lies inside the buffer: no slice is truncated and no index
    is out of range, because each read comes after the length check that
    covers it. *)
Theorem parse_packet_reads_in_bounds (data : list byte) :
  Forall (in_bounds (len data)) (trace (parse_packet (PyBytes data))).
Proof.
  cbn [parse_packet].
  destruct (parse_bytes_decoded data)
    as [ | | |t n Hh|t n c Hh Hb|c Hh Hb|n c code rest Hh Hb|t n c Hh Hb];
    cbn [trace fst]; unfold all_reads, header_reads; cbn [app];
    try (destruct Hh as (Hlen & _ & _ & _ & Hn);
         pose proof (unpack_H_range _ _ Hn));
    try destruct Hb as (Hbody & _);
    repeat constructor; cbn; lia.
Qed.

(** ** The fuzzing harness *)

(** X4. On every [bytes] input, the only kind atheris provides,
    [TestOneInput] prints nothing and returns: no input makes the harness
    report a crash of the parser. *)
Theorem TestOneInput_bytes (data : list byte) :
  TestOneInput (PyBytes data) = ([], Returned).
Proof.
  unfold TestOneInput. cbn [parse_packet].
  destruct (parse_bytes_decoded data); reflexivity.
Qed.

(** X5. On an input that is not [bytes], [TestOneInput] never returns: it
    prints the [TypeError] of the parser, then raises it again if the
    input has a [hex] method (a [bytearray]), after printing the input;
    otherwise [data.hex()] in the handler raises an [AttributeError], which
    replaces the [TypeError]. *)
Theorem TestOneInput_non_bytes (v : pyval) :
  isinstance_bytes v = false ->
  let e := TypeError "Entrada deve ser bytes" in
  match v with
  | PyByteArray bs =>
      TestOneInput v =
        ([msg_unexpected e; msg_input (hex_of_bytes bs)],
         Escaped (FromParser e))
  | _ =>
      TestOneInput v =
        ([msg_unexpected e], Escaped (AttributeError (msg_no_hex v)))
  end.
Proof.
  intros H. destruct v; try discriminate H; reflexivity.
Qed.

Lemma TestOneInput_non_bytes_witness :
  TestOneInput (PyStr "CAFE") =
    ([String "010"%char
        ">>> Exceção Inesperada Encontrada: TypeError: Entrada deve ser bytes"],
     Escaped (AttributeError "'str' object has no attribute 'hex'")).
Proof.
  apply (TestOneInput_non_bytes (PyStr "CAFE")). reflexivity.
Defined.

(** ** Buffers that agree on their first bytes *)

Section Agree.

Variables (l l' : list byte) (k : Z).
Hypothesis Hk : 0 <= k <= len l.
Hypothesis Hagree : take (Z.to_nat k) l' = take (Z.to_nat k) l.

Lemma agree_len : k <= len l'.
Proof.
  pose proof (f_equal length Hagree) as H.
  rewrite !length_take in H. unfold len in *. lia.
Qed.

Lemma agree_take (hi : Z) :
  0 <= hi <= k -> take (Z.to_nat hi) l' = take (Z.to_nat hi) l.
Proof.
  intros H.
  assert (Hmin : forall x : list byte,
             take (Z.to_nat hi) x = take (Z.to_nat hi) (take (Z.to_nat k) x)).
  { intros x. rewrite take_take. f_equal. lia. }
  rewrite (Hmin l'), (Hmin l), Hagree. reflexivity.
Qed.

Lemma agree_slice (lo hi : Z) :
  0 <= lo <= hi -> hi <= k -> slice l' lo hi = slice l lo hi.
Proof.
  intros Hlo Hhi. pose proof agree_len.
  rewrite !slice_in_range by lia.
  rewrite !take_drop_commute.
  replace (Z.to_nat lo + Z.to_nat (hi - lo))%nat with (Z.to_nat hi) by lia.
  rewrite agree_take by lia. reflexivity.
Qed.

Lemma agree_index (i : Z) : 0 <= i < k -> index l' i = index l i.
Proof.
  intros Hi. pose proof agree_len.
  destruct (index_in_range l i) as (b & Hb & ->); [lia|].
  destruct (index_in_range l' i) as (b' & Hb' & ->); [lia|].
  rewrite <- (lookup_take_lt l (Z.to_nat k)) in Hb by lia.
  rewrite <- (lookup_take_lt l' (Z.to_nat k)) in Hb' by lia.
  rewrite Hagree, Hb in Hb'. by injection Hb' as ->.
Qed.

End Agree.

Lemma parse_bytes_agree (data data' : list byte) (t n : Z) :
  header_ok data t n -> 5 + n + 1 <= len data ->
  take (Z.to_nat (5 + n + 1)) data' = take (Z.to_nat (5 + n + 1)) data ->
  parse_bytes data' = parse_bytes data.
Proof.
  intros (Hlen & Hm & Ht & Hin & Hn) Hbody Hagree.
  pose proof (unpack_H_range _ _ Hn) as Hrange.
  assert (Hk : 0 <= 5 + n + 1 <= len data) by lia.
  pose proof (agree_len data data' _ Hk Hagree) as Hbody'.
  assert (Hlen' : 5 <= len data') by lia.
  assert (Hm' : magic_field data' = Ok MAGIC_NUMBER).
  { unfold magic_field. by rewrite (agree_slice data data' _ Hk Hagree) by lia. }
  assert (Ht' : type_field data' = Ok t).
  { unfold type_field. by rewrite (agree_index data data' _ Hk Hagree) by lia. }
  assert (Hn' : length_field data' = Ok n).
  { unfold length_field.
    by rewrite (agree_slice data data' _ Hk Hagree) by lia. }
  assert (Hcov : covered_of data' n = covered_of data n).
  { unfold covered_of. apply (agree_slice data data' _ Hk Hagree); lia. }
  assert (Hpay : payload_of data' n = payload_of data n).
  { unfold payload_of. apply (agree_slice data data' _ Hk Hagree); lia. }
  destruct (checksum_field_in_range data n) as (c & Hc & _); [lia..|].
  assert (Hc' : checksum_field data' n = Ok c).
  { unfold checksum_field.
    by rewrite (agree_index data data' _ Hk Hagree) by lia. }
  destruct (decide (calculate_checksum (covered_of data n) = c))
    as [Hsum|Hsum].
  2: { rewrite (parse_checksum_mismatch data Hlen _ Hm eq_refl t Ht Hin n
                  Hn Hbody c Hc Hsum).
       rewrite <- Hcov in Hsum.
       rewrite (parse_checksum_mismatch data' Hlen' _ Hm' eq_refl t Ht' Hin n
                  Hn' Hbody' c Hc' Hsum).
       by rewrite Hcov. }
  assert (Hsum' : calculate_checksum (covered_of data' n) = c)
    by (by rewrite Hcov).
  destruct (decide (t = 0x02)) as [->|Hother].
  2: { rewrite (parse_other data Hlen _ Hm eq_refl t Ht Hin n Hn Hbody c Hc
                  Hsum Hother).
       rewrite (parse_other data' Hlen' _ Hm' eq_refl t Ht' Hin n Hn' Hbody'
                  c Hc' Hsum' Hother).
       by rewrite Hpay. }
  destruct (decide (n = 0)) as [->|Hnonzero].
  { rewrite (parse_empty_command data Hlen _ Hm eq_refl _ Ht Hin 0 Hn Hbody
               c Hc Hsum eq_refl eq_refl).
    by rewrite (parse_empty_command data' Hlen' _ Hm' eq_refl _ Ht' Hin 0 Hn'
                  Hbody' c Hc' Hsum' eq_refl eq_refl). }
  destruct (parse_command data Hlen _ Hm eq_refl _ Ht Hin n Hn Hbody c Hc
              Hsum eq_refl Hnonzero) as (code & rest & Hp & ->).
  destruct (parse_command data' Hlen' _ Hm' eq_refl _ Ht' Hin n Hn' Hbody' c
              Hc' Hsum' eq_refl Hnonzero) as (code' & rest' & Hp' & ->).
  rewrite Hpay, Hp in Hp'. injection Hp' as <- <-.
  by rewrite Hpay.
Qed.

(** X6. Once the header and the total length check pass, with declared
    payload length [n], [parse_packet] looks at the first [5 + n + 1] bytes
    only: two buffers that agree on them give the same reads and the same
    outcome, be it a decoded packet, a checksum mismatch or an empty
    command. *)
Theorem parse_packet_prefix (data data' : list byte) (t n : Z) :
  header_ok data t n -> 5 + n + 1 <= len data ->
  take (Z.to_nat (5 + n + 1)) data' = take (Z.to_nat (5 + n + 1)) data ->
  parse_packet (PyBytes data') = parse_packet (PyBytes data).
Proof. cbn [parse_packet]. apply parse_bytes_agree. Qed.

Lemma parse_packet_prefix_witness :
  parse_packet (PyBytes [xca; xfe; x01; x00; x01; x41; x75]) =
  parse_packet (PyBytes [xca; xfe; x01; x00; x01; x41; x75; xde; xad]).
Proof.
  apply (parse_packet_prefix
           [xca; xfe; x01; x00; x01; x41; x75; xde; xad]
           [xca; xfe; x01; x00; x01; x41; x75] 1 1).
  - concrete_header.
  - vm_compute. discriminate.
  - reflexivity.
Defined.

(** X7. Trailing bytes are accepted: when a buffer is decoded, the buffer
    followed by any further bytes is decoded to the same dictionary. *)
Theorem parse_packet_trailing_bytes (data extra : list byte)
    (d : gmap string pyval) :
  outcome (parse_packet (PyBytes data)) = Ok d ->
  outcome (parse_packet (PyBytes (data ++ extra))) = Ok d.
Proof.
  cbn [parse_packet]. intros Hok.
  destruct (parse_bytes_Ok_inv data d Hok)
    as (t & n & c & Hh & (Hbody & _) & _).
  rewrite (parse_bytes_agree data (data ++ extra) t n Hh Hbody); [done|].
  apply take_app_le. unfold len in Hbody. lia.
Qed.

Lemma parse_packet_trailing_bytes_witness :
  outcome (parse_packet
             (PyBytes ([xca; xfe; x01; x00; x01; x41; x75] ++ [xde; xad]))) =
    Ok (packet_dict MAGIC_NUMBER 1 1 [x41] 0x75).
Proof.
  apply (parse_packet_trailing_bytes [xca; xfe; x01; x00; x01; x41; x75]
           [xde; xad]).
  reflexivity.
Defined.

(** ** The dictionary [parse_packet] returns *)

Lemma parse_bytes_Ok_dict (data : list byte) (d : gmap string pyval) :
  outcome (parse_bytes data) = Ok d ->
  exists t n c,
    header_ok data t n /\ body_ok data n c /\
    calculate_checksum (covered_of data n) = c /\
    ((t = 0x02 /\
      exists code rest,
        payload_of data n = code :: rest /\
        d = <["command_code" := PyInt (byte_val code)]>
              (packet_dict MAGIC_NUMBER t n (payload_of data n) c)) \/
     (t <> 0x02 /\
      d = packet_dict MAGIC_NUMBER t n (payload_of data n) c)).
Proof.
  intros Hok. pose proof (parse_bytes_decoded data) as Hd.
  destruct Hd as [| | | | | |n c code rest Hh Hb Hs Hn Hp|t n c Hh Hb Hs Ht];
    cbn [outcome snd] in Hok; try discriminate Hok; injection Hok as <-.
  - exists 0x02, n, c. split_and!; try done.
    left. split; [done|]. exists code, rest. by rewrite Hp.
  - exists t, n, c. split_and!; try done. by right.
Qed.

Lemma packet_dict_magic (magic t n c : Z) (payload : list byte) :
  packet_dict magic t n payload c !! "magic" = Some (PyInt magic).
Proof. done. Qed.

Lemma packet_dict_checksum (magic t n c : Z) (payload : list byte) :
  packet_dict magic t n payload c !! "checksum" = Some (PyInt c).
Proof. done. Qed.

Lemma packet_dict_dom (magic t n c : Z) (payload : list byte) :
  dom (packet_dict magic t n payload c) =
  ({["magic"; "type"; "payload_len"; "payload"; "checksum"]} : gset string).
Proof.
  unfold packet_dict. rewrite !dom_insert_L, dom_empty_L. set_solver.
Qed.

(** X8. The fields of a decoded packet: [magic] is 0xCAFE, [type] is 1, 2
    or 3, [payload_len] is the 16-bit value of the length field, [payload]
    is the [payload_len] bytes behind the header (its length is never
    smaller, the slice is not truncated), [checksum] is the byte behind the
    payload and equals the checksum of all the bytes before it. *)
Theorem decoded_packet_fields (data : list byte) (d : gmap string pyval) :
  outcome (parse_packet (PyBytes data)) = Ok d ->
  exists t n payload b,
    d !! "magic" = Some (PyInt 0xCAFE) /\
    d !! "type" = Some (PyInt t) /\ t ∈ [0x01; 0x02; 0x03] /\
    d !! "payload_len" = Some (PyInt n) /\ 0 <= n <= 65535 /\
    d !! "payload" = Some (PyBytes payload) /\
    payload = take (Z.to_nat n) (drop 5 data) /\ len payload = n /\
    d !! "checksum" = Some (PyInt (byte_val b)) /\
    data !! Z.to_nat (5 + n) = Some b /\
    byte_val b = calculate_checksum (take (Z.to_nat (5 + n)) data).
Proof.
  cbn [parse_packet]. intros Hok.
  destruct (parse_bytes_Ok_dict data d Hok)
    as (t & n & c & Hh & (Hbody & Hc) & Hsum & Hd).
  pose proof Hh as (Hlen & Hm & Ht & Hin & Hn).
  pose proof (unpack_H_range _ _ Hn) as Hrange.
  apply index_Ok_inv in Hc as (_ & b & Hb & ->); [|lia].
  pose proof (len_payload_of data n Hn Hbody) as Hlp.
  assert (Hpay : payload_of data n = take (Z.to_nat n) (drop 5 data)).
  { unfold payload_of. rewrite slice_in_range by lia.
    do 2 f_equal. lia. }
  assert (Hcov : covered_of data n = take (Z.to_nat (5 + n)) data).
  { unfold covered_of. by rewrite slice_prefix by lia. }
  exists t, n, (payload_of data n), b.
  assert (Hfields :
    d !! "magic" = Some (PyInt 0xCAFE) /\ d !! "type" = Some (PyInt t) /\
    d !! "payload_len" = Some (PyInt n) /\
    d !! "payload" = Some (PyBytes (payload_of data n)) /\
    d !! "checksum" = Some (PyInt (byte_val b))).
  { destruct Hd as [(_ & code & rest & _ & ->)|(_ & ->)].
    - rewrite !command_dict_other by done.
      split_and!; [apply packet_dict_magic | apply packet_dict_type
                  | apply packet_dict_payload_len | apply packet_dict_payload
                  | apply packet_dict_checksum].
    - split_and!; [apply packet_dict_magic | apply packet_dict_type
                  | apply packet_dict_payload_len | apply packet_dict_payload
                  | apply packet_dict_checksum]. }
  destruct Hfields as (? & ? & ? & ? & ?).
  split_and!; try done; try lia. by rewrite <- Hcov, Hsum.
Qed.

(** X9. The keys of a decoded packet: [magic], [type], [payload_len],
    [payload] and [checksum], and [command_code] as well exactly when the
    type is CMD (0x02); a DATA or ACK packet never has a [command_code]. *)
Theorem decoded_packet_keys (data : list byte) (d : gmap string pyval) :
  outcome (parse_packet (PyBytes data)) = Ok d ->
  (d !! "type" = Some (PyInt 0x02) ->
   dom d = {["magic"; "type"; "payload_len"; "payload"; "checksum";
             "command_code"]}) /\
  (d !! "type" <> Some (PyInt 0x02) ->
   dom d = {["magic"; "type"; "payload_len"; "payload"; "checksum"]}).
Proof.
  cbn [parse_packet]. intros Hok.
  destruct (parse_bytes_Ok_dict data d Hok)
    as (t & n & c & _ & _ & _ & [(-> & code & rest & _ & ->)|(Ht & ->)]).
  - split.
    + intros _. rewrite dom_insert_L, packet_dict_dom. set_solver.
    + intros Hne. destruct Hne.
      rewrite command_dict_other by done. apply packet_dict_type.
  - split.
    + rewrite packet_dict_type. intros [= ->]. by destruct Ht.
    + intros _. apply packet_dict_dom.
Qed.

Lemma decoded_packet_fields_witness :
  exists t n payload b,
    packet_dict MAGIC_NUMBER 1 1 [x41] 0x75 !! "magic" = Some (PyInt 0xCAFE) /\
    packet_dict MAGIC_NUMBER 1 1 [x41] 0x75 !! "type" = Some (PyInt t) /\
    t ∈ [0x01; 0x02; 0x03] /\
    packet_dict MAGIC_NUMBER 1 1 [x41] 0x75 !! "payload_len" =
      Some (PyInt n) /\ 0 <= n <= 65535 /\
    packet_dict MAGIC_NUMBER 1 1 [x41] 0x75 !! "payload" =
      Some (PyBytes payload) /\
    payload = take (Z.to_nat n) (drop 5 [xca; xfe; x01; x00; x01; x41; x75]) /\
    len payload = n /\
    packet_dict MAGIC_NUMBER 1 1 [x41] 0x75 !! "checksum" =
      Some (PyInt (byte_val b)) /\
    [xca; xfe; x01; x00; x01; x41; x75] !! Z.to_nat (5 + n) = Some b /\
    byte_val b =
      calculate_checksum
        (take (Z.to_nat (5 + n)) [xca; xfe; x01; x00; x01; x41; x75]).
Proof.
  apply (decoded_packet_fields [xca; xfe; x01; x00; x01; x41; x75]).
  reflexivity.
Defined.

Lemma decoded_packet_keys_witness :
  dom (<["command_code" := PyInt 7]>
         (packet_dict MAGIC_NUMBER 2 1 [x07] 0x30)) =
  ({["magic"; "type"; "payload_len"; "payload"; "checksum";
     "command_code"]} : gset string).
Proof.
  apply (proj1 (decoded_packet_keys [xca; xfe; x02; x00; x01; x07; x30] _
                  eq_refl)).
  reflexivity.
Defined.

(** ** The algebra of [calculate_checksum] *)

Lemma xor_fold_app (l k : list Z) :
  xor_fold (l ++ k) = Z.lxor (xor_fold l) (xor_fold k).
Proof.
  induction l as [|x l IH]; simpl.
  - reflexivity.
  - fold (xor_fold (l ++ k)). fold (xor_fold l).
    rewrite IH, Z.lxor_assoc. reflexivity.
Qed.

Lemma xor_fold_perm (l k : list Z) : l ≡ₚ k -> xor_fold l = xor_fold k.
Proof.
  induction 1 as [|x l k _ IH|x y l|l k m _ IH1 _ IH2]; simpl.
  - reflexivity.
  - fold (xor_fold l). fold (xor_fold k). by rewrite IH.
  - fold (xor_fold l).
    rewrite <- !Z.lxor_assoc. f_equal. apply Z.lxor_comm.
  - by rewrite IH1.
Qed.

Lemma checksum_app (l k : list byte) :
  calculate_checksum (l ++ k) =
  Z.lxor (calculate_checksum l) (calculate_checksum k).
Proof.
  rewrite !calculate_checksum_xor_fold, fmap_app. apply xor_fold_app.
Qed.

Lemma checksum_perm (l k : list byte) :
  l ≡ₚ k -> calculate_checksum l = calculate_checksum k.
Proof.
  intros H. rewrite !calculate_checksum_xor_fold.
  apply xor_fold_perm. by apply fmap_Permutation.
Qed.

Lemma checksum_cons (b : byte) (l : list byte) :
  calculate_checksum (b :: l) = Z.lxor (byte_val b) (calculate_checksum l).
Proof. rewrite !calculate_checksum_xor_fold. reflexivity. Qed.

Lemma checksum_insert (l : list byte) (i : nat) (old b : byte) :
  l !! i = Some old ->
  calculate_checksum (<[i := b]> l) =
  Z.lxor (calculate_checksum l) (Z.lxor (byte_val old) (byte_val b)).
Proof.
  intros Hold.
  rewrite insert_take_drop by (by eapply lookup_lt_Some).
  rewrite <- (take_drop_middle l i old Hold) at 3.
  rewrite !checksum_app, !checksum_cons.
  set (x := calculate_checksum (take i l)).
  set (y := calculate_checksum (drop (S i) l)).
  set (o := byte_val old). set (n := byte_val b).
  apply Z.bits_inj'. intros k _. rewrite !Z.lxor_spec.
  destruct (Z.testbit x k), (Z.testbit y k), (Z.testbit o k),
    (Z.testbit n k); reflexivity.
Qed.

Lemma lxor_change (c o n : Z) : Z.lxor c (Z.lxor o n) = c -> o = n.
Proof.
  intros H. apply Z.lxor_eq.
  assert (Hc : Z.lxor c (Z.lxor c (Z.lxor o n)) = Z.lxor c c)
    by (by rewrite H).
  by rewrite <- Z.lxor_assoc, Z.lxor_nilpotent, Z.lxor_0_l in Hc.
Qed.

(** X10. The checksum of a concatenation is the XOR of the checksums of
    its parts, and the checksum of the empty sequence is 0. *)
Theorem calculate_checksum_concat (l k : list byte) :
  calculate_checksum (l ++ k) =
    Z.lxor (calculate_checksum l) (calculate_checksum k) /\
  calculate_checksum [] = 0.
Proof. split; [apply checksum_app | reflexivity]. Qed.

(** X11. The checksum does not depend on the order of the bytes: two
    sequences with the same bytes in any order have the same checksum. *)
Theorem calculate_checksum_order (l k : list byte) :
  l ≡ₚ k -> calculate_checksum l = calculate_checksum k.
Proof. apply checksum_perm. Qed.

Lemma calculate_checksum_order_witness :
  calculate_checksum [x01; x02; x03] = calculate_checksum [x03; x01; x02].
Proof.
  apply (calculate_checksum_order [x01; x02; x03] [x03; x01; x02]).
  change [x03; x01; x02] with ([x03] ++ [x01; x02]).
  change [x01; x02; x03] with ([x01; x02] ++ [x03]).
  apply Permutation_app_comm.
Defined.

(** X12. Replacing one byte of a sequence by a different byte always
    changes the checksum: the new checksum is the old one XOR the old byte
    XOR the new byte. *)
Theorem calculate_checksum_one_byte (l : list byte) (i : nat)
    (old b : byte) :
  l !! i = Some old -> b <> old ->
  calculate_checksum (<[i := b]> l) =
    Z.lxor (calculate_checksum l) (Z.lxor (byte_val old) (byte_val b)) /\
  calculate_checksum (<[i := b]> l) <> calculate_checksum l.
Proof.
  intros Hold Hne. rewrite (checksum_insert l i old b Hold).
  split; [reflexivity|].
  intros H. apply lxor_change, byte_val_inj in H. by destruct Hne.
Qed.

Lemma calculate_checksum_one_byte_witness :
  calculate_checksum (<[1%nat := xff]> [x01; x02; x03]) <>
  calculate_checksum [x01; x02; x03].
Proof.
  apply (calculate_checksum_one_byte [x01; x02; x03] 1 x02 xff).
  - reflexivity.
  - discriminate.
Defined.

(** X13. The checksum of any byte sequence is in 0..255, so [bytes([checksum])]
    never raises: it is the one byte with that value. *)
Theorem calculate_checksum_is_byte (l : list byte) :
  0 <= calculate_checksum l < 256 /\
  exists b,
    bytes_of_int (calculate_checksum l) = Ok [b] /\
    byte_val b = calculate_checksum l.
Proof.
  pose proof (calculate_checksum_range l) as H.
  split; [exact H|].
  destruct (byte_of_Z_in_range _ H) as (b & Hb & Hv).
  exists b. unfold bytes_of_int. by rewrite Hb.
Qed.

(** ** Header, payload and what follows *)

Section Layout.

Variables (head payload tail : list byte).
Hypothesis Hhead : length head = 5%nat.

Let data : list byte := head ++ payload ++ tail.

Lemma len_layout : len data = 5 + len payload + len tail.
Proof. unfold data. rewrite !len_app. unfold len. lia. Qed.

Lemma layout_take_head : take 5 data = head.
Proof. unfold data. by apply take_app_length'. Qed.

Lemma layout_covered : covered_of data (len payload) = head ++ payload.
Proof.
  pose proof len_layout. pose proof (len_nonneg payload).
  pose proof (len_nonneg tail).
  unfold covered_of. rewrite slice_prefix by lia.
  unfold data. rewrite (assoc_L (++)). apply take_app_length'.
  rewrite length_app. unfold len. lia.
Qed.

Lemma layout_payload : payload_of data (len payload) = payload.
Proof.
  pose proof len_layout. pose proof (len_nonneg payload).
  pose proof (len_nonneg tail).
  unfold payload_of. rewrite slice_in_range by lia.
  change (Z.to_nat 5) with 5%nat. rewrite <- Hhead.
  unfold data. rewrite drop_app_length. apply take_app_length'.
  unfold len. lia.
Qed.

Lemma layout_lookup_tail :
  data !! Z.to_nat (5 + len payload) = tail !! 0%nat.
Proof.
  unfold data. rewrite (assoc_L (++)), lookup_app_r.
  - f_equal. rewrite length_app. unfold len. lia.
  - rewrite length_app. unfold len. lia.
Qed.

End Layout.

Lemma index_insert_ne (data : list byte) (i : nat) (b : byte) (j : Z) :
  0 <= j -> Z.to_nat j <> i -> index (<[i := b]> data) j = index data j.
Proof.
  intros Hj Hne. unfold index. rewrite len_insert.
  destruct (Z.ltb_spec j 0); [lia|].
  by rewrite list_lookup_insert_ne.
Qed.

Lemma slice_drop_last {A} (l : list A) (x : A) : slice (l ++ [x]) 0 (-1) = l.
Proof.
  unfold slice, clip. rewrite len_app. pose proof (len_nonneg l).
  change (len [x]) with 1. cbn [Z.ltb Z.compare].
  replace (Z.to_nat _) with (length l) by (unfold len in *; lia).
  replace (Z.to_nat _) with 0%nat by lia.
  apply take_app_length.
Qed.

(** X14. Reordering the payload is not detected. If a buffer made of a
    5-byte header, a payload and further bytes is decoded with that
    payload, then the buffer with the payload bytes in any other order is
    decoded too, with the reordered payload and the same checksum. *)
Theorem payload_reordering_undetected (head payload payload' tail : list byte)
    (d : gmap string pyval) :
  length head = 5%nat ->
  outcome (parse_packet (PyBytes (head ++ payload ++ tail))) = Ok d ->
  d !! "payload" = Some (PyBytes payload) ->
  payload ≡ₚ payload' ->
  exists d',
    outcome (parse_packet (PyBytes (head ++ payload' ++ tail))) = Ok d' /\
    d' !! "payload" = Some (PyBytes payload') /\
    d' !! "payload_len" = d !! "payload_len".
Proof.
  cbn [parse_packet]. intros Hhead Hok Hpayload Hperm.
  destruct (decoded_Ok_inv _ _ d (parse_bytes_decoded _) Hok)
    as (t & n & c & Hh & (Hbody & Hc) & Hsum & _ & _ & Hn & Hp & Hcmd & _).
  rewrite Hp in Hpayload. injection Hpayload as Hpay.
  pose proof Hh as (Hlen & Hm & Ht & Hin & Hl).
  pose proof (len_payload_of _ _ Hl Hbody) as Hlp. rewrite Hpay in Hlp.
  subst n.
  assert (Hsame : len payload' = len payload).
  { unfold len. by rewrite (Permutation_length Hperm). }
  set (data := head ++ payload ++ tail) in *.
  set (data' := head ++ payload' ++ tail).
  assert (Hlen' : len data' = len data).
  { unfold data, data'. rewrite !len_layout by done. lia. }
  assert (Hk : 0 <= 5 <= len data) by lia.
  assert (Hagree : take (Z.to_nat 5) data' = take (Z.to_nat 5) data).
  { change (Z.to_nat 5) with 5%nat. unfold data, data'.
    by rewrite !layout_take_head. }
  destruct (parse_bytes_Ok data' t (len payload) c)
    as (d' & Hrun & _ & Hn' & Hp').
  - unfold header_ok, magic_field, type_field, length_field.
    rewrite !(agree_slice data data' 5 Hk Hagree) by lia.
    rewrite (agree_index data data' 5 Hk Hagree) by lia.
    split_and!; [lia | done..].
  - split; [lia|].
    apply index_Ok_inv in Hc as (_ & b & Hb & ->);
      [|pose proof (len_nonneg payload); lia].
    destruct (index_in_range data' (5 + len payload)) as (b' & Hb' & Hi');
      [pose proof (len_nonneg payload); lia|].
    unfold checksum_field. rewrite Hi'. do 2 f_equal.
    unfold data in Hb. rewrite layout_lookup_tail in Hb by done.
    rewrite <- Hsame in Hb'. unfold data' in Hb'.
    rewrite layout_lookup_tail in Hb' by done. congruence.
  - rewrite <- Hsum. unfold data, data'. rewrite <- Hsame at 1.
    rewrite !layout_covered, !checksum_app by done.
    f_equal. symmetry. by apply checksum_perm.
  - intros Hcmd2. destruct (Hcmd Hcmd2) as (code & rest & Hcr & _).
    rewrite Hpay in Hcr. rewrite Hcr. discriminate.
  - exists d'. rewrite Hrun. split; [done|]. split; [|by rewrite Hn', Hn].
    rewrite Hp'. do 2 f_equal. rewrite <- Hsame. unfold data'.
    by apply layout_payload.
Qed.

Lemma payload_reordering_undetected_witness :
  exists d',
    outcome (parse_packet
               (PyBytes ([xca; xfe; x01; x00; x02] ++ [x42; x41] ++ [x34])))
      = Ok d' /\
    d' !! "payload" = Some (PyBytes [x42; x41]) /\
    d' !! "payload_len" =
      packet_dict MAGIC_NUMBER 1 2 [x41; x42] 0x34 !! "payload_len".
Proof.
  apply (payload_reordering_undetected [xca; xfe; x01; x00; x02]
           [x41; x42] [x42; x41] [x34]
           (packet_dict MAGIC_NUMBER 1 2 [x41; x42] 0x34)).
  - reflexivity.
  - reflexivity.
  - reflexivity.
  - apply perm_swap.
Defined.

(** X15. A change of one payload byte is detected. If a buffer is decoded,
    with payload length [n] and checksum byte [c], then the buffer with one
    byte of the payload (offset 5 to 5 + n - 1) replaced by a different
    byte is rejected with the [ParsingError] for a checksum mismatch;
    expected is [c] XOR the old byte XOR the new byte, actual is [c]. *)
Theorem payload_byte_mutation (data : list byte) (d : gmap string pyval)
    (n c : Z) (i : nat) (old b : byte) :
  outcome (parse_packet (PyBytes data)) = Ok d ->
  d !! "payload_len" = Some (PyInt n) ->
  d !! "checksum" = Some (PyInt c) ->
  5 <= Z.of_nat i < 5 + n ->
  data !! i = Some old -> b <> old ->
  outcome (parse_packet (PyBytes (<[i := b]> data))) =
    Raise (ParsingError
             (msg_checksum_mismatch
                (Z.lxor c (Z.lxor (byte_val old) (byte_val b))) c)).
Proof.
  cbn [parse_packet]. intros Hok Hn Hcs Hi Hold Hne.
  destruct (parse_bytes_Ok_dict data d Hok)
    as (t & n' & c' & Hh & (Hbody & Hc) & Hsum & Hd).
  assert (Hlook : d !! "payload_len" = Some (PyInt n') /\
                  d !! "checksum" = Some (PyInt c')).
  { destruct Hd as [(_ & code & rest & _ & ->)|(_ & ->)];
      rewrite ?command_dict_other by done;
      (split; [apply packet_dict_payload_len | apply packet_dict_checksum]). }
  destruct Hlook as (Hn' & Hcs').
  rewrite Hn' in Hn. injection Hn as ->.
  rewrite Hcs' in Hcs. injection Hcs as ->.
  pose proof Hh as (Hlen & Hm & Ht & Hin & Hl).
  destruct (header_ok_insert data i b t n ltac:(lia) Hh)
    as (Hlen' & Hm' & Ht' & _ & Hl').
  assert (Hc' : checksum_field (<[i := b]> data) n = Ok c).
  { unfold checksum_field. rewrite index_insert_ne by lia. exact Hc. }
  assert (Hcov : calculate_checksum (covered_of (<[i := b]> data) n) =
                 Z.lxor c (Z.lxor (byte_val old) (byte_val b))).
  { unfold covered_of in *.
    rewrite slice_prefix by (rewrite len_insert; lia).
    rewrite slice_prefix in Hsum by lia.
    rewrite take_insert_lt by lia.
    rewrite (checksum_insert _ i old b), Hsum; [done|].
    rewrite lookup_take_lt by lia. exact Hold. }
  rewrite (parse_checksum_mismatch _ Hlen' _ Hm' eq_refl t Ht' Hin n Hl'
             ltac:(rewrite len_insert; lia) c Hc').
  - cbn [outcome snd]. by rewrite Hcov.
  - rewrite Hcov. intros H. apply lxor_change, byte_val_inj in H.
    by destruct Hne.
Qed.

Lemma payload_byte_mutation_witness :
  outcome (parse_packet (PyBytes [xca; xfe; x01; x00; x01; x40; x75])) =
    Raise (ParsingError "Checksum inválido. Esperado: 0x74, Recebido: 0x75").
Proof.
  refine (payload_byte_mutation [xca; xfe; x01; x00; x01; x41; x75]
            (packet_dict MAGIC_NUMBER 1 1 [x41] 0x75) 1 0x75 5 x41 x40
            _ _ _ _ _ _).
  - reflexivity.
  - reflexivity.
  - reflexivity.
  - split; [vm_compute; discriminate | reflexivity].
  - reflexivity.
  - discriminate.
Defined.

(** ** The invalid packets of the example *)

(** X16. The packet with a wrong checksum of the example (line 138), for
    any valid packet: taking a built packet without its last byte and
    appending [(checksum + 1) % 256] gives a buffer that [parse_packet]
    rejects with the [ParsingError] for a checksum mismatch, expected
    [checksum], actual [(checksum + 1) % 256]; this holds for an empty CMD
    payload too, the checksum being checked first. *)
Theorem corrupted_checksum_rejected (packet_type : Z) (payload : list byte) :
  packet_type ∈ [0x01; 0x02; 0x03] -> len payload <= 65535 ->
  exists valid_packet invalid_packet checksum,
    build_packet packet_type payload = Ok valid_packet /\
    checksum = calculate_checksum (slice valid_packet 0 (-1)) /\
    corrupt_checksum valid_packet checksum = Ok invalid_packet /\
    outcome (parse_packet (PyBytes invalid_packet)) =
      Raise (ParsingError
               (msg_checksum_mismatch checksum ((checksum + 1) mod 256))).
Proof.
  intros Hin Hlen.
  assert (Ht : 0 <= packet_type < 256) by (set_unfold; lia).
  destruct (build_packet_wire packet_type payload Ht Hlen)
    as (tb & hi & lo & cb & Hbuild & Hvt & Hvl & Hvc).
  set (head := [xca; xfe; tb; hi; lo]) in *.
  set (c := calculate_checksum (head ++ payload)) in *.
  assert (Hc : 0 <= c < 256) by apply calculate_checksum_range.
  destruct (byte_of_Z_in_range ((c + 1) mod 256)) as (cb' & Hcb' & Hv').
  { apply Z.mod_pos_bound. lia. }
  assert (Hsl : slice (head ++ payload ++ [cb]) 0 (-1) = head ++ payload).
  { rewrite (assoc_L (++)). apply slice_drop_last. }
  exists (head ++ payload ++ [cb]), (head ++ payload ++ [cb']), c.
  split_and!.
  - exact Hbuild.
  - by rewrite Hsl.
  - unfold corrupt_checksum, bytes_of_int. rewrite Hcb', Hsl.
    by rewrite <- (assoc_L (++)).
  - cbn [parse_packet]. subst head.
    pose proof (wire_header_ok tb hi lo cb' payload Hvl) as Hh.
    rewrite Hvt in Hh. destruct (Hh Hin) as (Hl5 & Hm & Hty & _ & Hn).
    destruct (wire_body_ok tb hi lo cb' payload) as (Hbody & Hck).
    rewrite (parse_checksum_mismatch _ Hl5 _ Hm eq_refl _ Hty Hin _ Hn
               Hbody _ Hck).
    + cbn [outcome snd]. rewrite wire_covered. fold c.
      by rewrite Hv'.
    + rewrite wire_covered. fold c. rewrite Hv'.
      intros Heq. destruct (Z.eq_dec c 255) as [->|]; [discriminate|].
      rewrite Z.mod_small in Heq by lia. lia.
Qed.

Lemma corrupted_checksum_rejected_witness :
  exists valid_packet invalid_packet checksum,
    build_packet 0x02 [] = Ok valid_packet /\
    checksum = calculate_checksum (slice valid_packet 0 (-1)) /\
    corrupt_checksum valid_packet checksum = Ok invalid_packet /\
    outcome (parse_packet (PyBytes invalid_packet)) =
      Raise (ParsingError
               (msg_checksum_mismatch checksum ((checksum + 1) mod 256))).
Proof.
  apply (corrupted_checksum_rejected 0x02 []).
  - set_solver.
  - vm_compute. discriminate.
Defined.

(** X17. The packet with an unknown type of the example (lines 150-152),
    for any type byte other than 1, 2 and 3 and any payload of at most
    65535 bytes: the packet is built, checksum included, and [parse_packet]
    rejects it with the [ParsingError] for an unknown type, carrying the
    type, after reading the magic number and the type only. *)
Theorem unknown_type_packet_rejected (packet_type : Z)
    (payload : list byte) :
  0 <= packet_type < 256 -> packet_type ∉ [0x01; 0x02; 0x03] ->
  len payload <= 65535 ->
  exists pkt,
    build_packet packet_type payload = Ok pkt /\
    parse_packet (PyBytes pkt) =
      ([ReadSlice 0 2; ReadIndex 2],
       Raise (ParsingError (msg_unknown_type packet_type))).
Proof.
  intros Ht Hout Hlen.
  destruct (build_packet_wire packet_type payload Ht Hlen)
    as (tb & hi & lo & cb & Hbuild & Hvt & Hvl & Hvc).
  eexists. split; [exact Hbuild|]. cbn [parse_packet app].
  assert (Hfive : 5 <= len (xca :: xfe :: tb :: hi :: lo :: payload ++ [cb])).
  { pose proof (len_nonneg (payload ++ [cb])).
    unfold len in *. simpl length. lia. }
  rewrite <- Hvt.
  apply (parse_unknown_type _ Hfive MAGIC_NUMBER
           (magic_field_cons xca xfe _) eq_refl).
  - apply type_field_cons.
  - by rewrite Hvt.
Qed.

Lemma unknown_type_packet_rejected_witness :
  exists pkt,
    build_packet 0x05 (String.list_byte_of_string "Hello Fuzzing!") = Ok pkt /\
    parse_packet (PyBytes pkt) =
      ([ReadSlice 0 2; ReadIndex 2],
       Raise (ParsingError (msg_unknown_type 0x05))).
Proof.
  apply (unknown_type_packet_rejected 0x05
           (String.list_byte_of_string "Hello Fuzzing!")).
  - split; [vm_compute; discriminate | reflexivity].
  - apply (bool_decide_unpack _). vm_compute. exact I.
  - vm_compute. discriminate.
Defined.

(** ** The messages of the errors *)

Lemma str_inj (a b : Z) : str a = str b -> a = b.
Proof.
  unfold str. intros H. apply DecimalZ.to_int_inj.
  assert (Hround : forall z,
    DecimalString.NilZero.int_of_string
      (DecimalString.NilZero.string_of_int (Z.to_int z)) = Some (Z.to_int z)).
  { intros z. apply DecimalString.NilZero.isi; destruct z; simpl;
      try discriminate; intros [= Hnil];
      by apply DecimalPos.Unsigned.to_uint_nonnil in Hnil. }
  pose proof (Hround a) as Ha. rewrite H, Hround in Ha. congruence.
Qed.

Lemma no_comma_uint (d : Decimal.uint) :
  no_comma (DecimalString.NilEmpty.string_of_uint d).
Proof. induction d; simpl; (split; [discriminate | assumption]) || exact I. Qed.

Lemma no_comma_str (z : Z) : no_comma (str z).
Proof.
  assert (Hu : forall d, no_comma (DecimalString.NilZero.string_of_uint d)).
  { intros d. pose proof (no_comma_uint d).
    destruct d; try assumption. simpl. split; [discriminate | exact I]. }
  unfold str. destruct z; simpl.
  - split; [discriminate | exact I].
  - apply Hu.
  - split; [discriminate | apply Hu].
Qed.

Lemma split_at_comma (s1 s2 r1 r2 : string) :
  no_comma s1 -> no_comma s2 ->
  s1 +:+ String "," r1 = s2 +:+ String "," r2 -> s1 = s2 /\ r1 = r2.
Proof.
  revert s2. induction s1 as [|c s1 IH]; intros [|c' s2]; simpl.
  - intros _ _ [= ->]. done.
  - intros _ [Hc _] [= <- _]. by destruct Hc.
  - intros [Hc _] _ [= -> _]. by destruct Hc.
  - intros [_ H1] [_ H2] [= -> H]. destruct (IH s2 H1 H2 H) as [-> ->]. done.
Qed.

Lemma append_inj_l (p x y : string) : p +:+ x = p +:+ y -> x = y.
Proof. induction p as [|c p IH]; simpl; [done | intros [= H]; auto]. Qed.

Lemma msg_insufficient_body_inj (e a e' a' : Z) :
  msg_insufficient_body e a = msg_insufficient_body e' a' ->
  e = e' /\ a = a'.
Proof.
  unfold msg_insufficient_body. intros H.
  apply append_inj_l in H.
  change (", Recebido: " +:+ str a)
    with (String "," (" Recebido: " +:+ str a)) in H.
  change (", Recebido: " +:+ str a')
    with (String "," (" Recebido: " +:+ str a')) in H.
  apply split_at_comma in H as [He Ha]; [|apply no_comma_str..].
  apply append_inj_l in Ha. split; by apply str_inj.
Qed.

(** X18. The message of a [ParsingError] tells which check failed: the six
    messages [parse_packet] can raise are pairwise different, whatever the
    numbers they carry. *)
Theorem error_messages_distinct (n1 n2 n3 n4 n5 n6 n7 : Z) :
  NoDup [msg_insufficient_header n1; msg_invalid_magic n2;
         msg_unknown_type n3; msg_insufficient_body n4 n5;
         msg_checksum_mismatch n6 n7; msg_empty_command_payload].
Proof.
  unfold msg_insufficient_header, msg_invalid_magic, msg_unknown_type,
    msg_insufficient_body, msg_checksum_mismatch, msg_empty_command_payload.
  cbn [String.append].
  repeat (apply NoDup_cons; split;
          [rewrite ?elem_of_cons, elem_of_nil; intros H;
           repeat (destruct H as [H|H]; [discriminate H|]); exact H|]).
  apply NoDup_nil_2.
Qed.

(** X19. The error for an insufficient body discloses the declared payload
    length: two buffers that both fail the total length check with the
    same error have the same declared payload length and the same
    length. *)
Theorem insufficient_body_discloses_length (data data' : list byte)
    (t n t' n' : Z) :
  header_ok data t n -> len data < 5 + n + 1 ->
  header_ok data' t' n' -> len data' < 5 + n' + 1 ->
  outcome (parse_packet (PyBytes data)) =
    outcome (parse_packet (PyBytes data')) ->
  n = n' /\ len data = len data'.
Proof.
  intros (Hlen & Hm & Ht & Hin & Hn) Hshort
         (Hlen' & Hm' & Ht' & Hin' & Hn') Hshort'.
  cbn [parse_packet].
  rewrite (parse_insufficient_body data Hlen _ Hm eq_refl t Ht Hin n Hn
             Hshort).
  rewrite (parse_insufficient_body data' Hlen' _ Hm' eq_refl t' Ht' Hin' n'
             Hn' Hshort').
  cbn [outcome snd]. intros H.
  assert (Hmsg : msg_insufficient_body (5 + n + 1) (len data) =
                 msg_insufficient_body (5 + n' + 1) (len data'))
    by congruence.
  apply msg_insufficient_body_inj in Hmsg as [He Ha].
  split; [lia | exact Ha].
Qed.

Lemma insufficient_body_discloses_length_witness :
  1 = 1 /\ len [xca; xfe; x01; x00; x01; x41] = len [xca; xfe; x02; x00; x01; x07].
Proof.
  apply (insufficient_body_discloses_length
           [xca; xfe; x01; x00; x01; x41] [xca; xfe; x02; x00; x01; x07]
           1 1 2 1).
  - concrete_header.
  - reflexivity.
  - concrete_header.
  - reflexivity.
  - reflexivity.
Defined.

(** ** Accepted buffers *)

(** X20. Which buffers [parse_packet] accepts: exactly those with at least
    5 bytes, the magic number 0xCAFE, a type in {1, 2, 3}, at least
    [5 + n + 1] bytes for the declared payload length [n], a byte at offset
    [5 + n] equal to the checksum of the bytes before it, and, for a CMD,
    a payload length other than 0. *)
Theorem parse_packet_accepts_iff (data : list byte) :
  (exists d, outcome (parse_packet (PyBytes data)) = Ok d) <->
  (exists t n c,
     header_ok data t n /\ body_ok data n c /\
     calculate_checksum (covered_of data n) = c /\
     (t = 0x02 -> n <> 0)).
Proof.
  cbn [parse_packet]. split.
  - intros (d & Hok).
    destruct (decoded_Ok_inv data _ d (parse_bytes_decoded data) Hok)
      as (t & n & c & Hh & Hb & Hs & _ & _ & _ & _ & Hcmd & _).
    exists t, n, c. split_and!; try done.
    intros Ht Hzero. destruct (Hcmd Ht) as (code & rest & Hp & _).
    destruct Hh as (_ & _ & _ & _ & Hn). destruct Hb as (Hbody & _).
    pose proof (len_payload_of data n Hn Hbody) as Hl.
    rewrite Hp, Hzero in Hl. discriminate Hl.
  - intros (t & n & c & Hh & Hb & Hs & Hcmd).
    destruct (parse_bytes_Ok data t n c Hh Hb Hs Hcmd) as (d & -> & _).
    by exists d.
Qed.

(** X21. Decoding then building gives back the bytes that were consumed:
    if [parse_packet] decodes a buffer, the packet built from the decoded
    type and payload is the buffer cut after its checksum byte. *)
Theorem parse_build_roundtrip (data : list byte) (d : gmap string pyval)
    (t : Z) (payload : list byte) :
  outcome (parse_packet (PyBytes data)) = Ok d ->
  d !! "type" = Some (PyInt t) ->
  d !! "payload" = Some (PyBytes payload) ->
  build_packet t payload =
    Ok (take (Z.to_nat (5 + len payload + 1)) data).
Proof.
  cbn [parse_packet]. intros Hok Htype Hpayload.
  destruct (decoded_Ok_inv data _ d (parse_bytes_decoded data) Hok)
    as (t' & n & c & Hh & (Hbody & Hc) & Hsum & _ & Ht' & _ & Hp & _).
  rewrite Ht' in Htype. injection Htype as ->.
  rewrite Hp in Hpayload. injection Hpayload as Hpay.
  pose proof Hh as (Hlen & Hm & Hty & Hin & Hn).
  pose proof (unpack_H_range _ _ Hn) as Hrange.
  pose proof (len_payload_of data n Hn Hbody) as Hlp.
  rewrite Hpay in Hlp. rewrite Hlp.
  destruct (header_bytes data Hlen) as (b0 & b1 & b2 & b3 & b4 & rest & Hdata).
  rewrite Hdata in Hm, Hty.
  rewrite magic_field_cons in Hm. injection Hm as Hm.
  apply magic_bytes in Hm as [-> ->].
  rewrite type_field_cons in Hty. injection Hty as Hty.
  assert (Hl : byte_val b3 * 256 + byte_val b4 = n).
  { unfold length_field in Hn. rewrite slice_in_range in Hn by lia.
    rewrite Hdata in Hn. by injection Hn. }
  apply index_Ok_inv in Hc as (_ & b & Hb & ->); [|lia].
  assert (Htake : take (Z.to_nat (5 + n)) data =
                  [xca; xfe; b2; b3; b4] ++ payload).
  { unfold payload_of in Hpay. rewrite slice_in_range in Hpay by lia.
    replace (Z.to_nat (5 + n - 5)) with (Z.to_nat n) in Hpay by lia.
    replace (Z.to_nat (5 + n)) with (Z.to_nat 5 + Z.to_nat n)%nat by lia.
    rewrite <- take_take_drop, Hpay. f_equal. by rewrite Hdata. }
  unfold covered_of in Hsum. rewrite slice_prefix, Htake in Hsum by lia.
  assert (Ht : 0 <= t < 256) by (rewrite <- Hty; apply byte_val_range).
  destruct (build_packet_wire t payload Ht ltac:(lia))
    as (tb & hi & lo & cb & -> & Hvt & Hvl & Hvc).
  rewrite <- Hty in Hvt. apply byte_val_inj in Hvt as ->.
  assert (hi = b3 /\ lo = b4) as [-> ->].
  { pose proof (byte_val_range hi). pose proof (byte_val_range lo).
    pose proof (byte_val_range b3). pose proof (byte_val_range b4).
    split; apply byte_val_inj; lia. }
  rewrite Hsum in Hvc. apply byte_val_inj in Hvc as ->.
  f_equal.
  replace (Z.to_nat (5 + n + 1)) with (S (Z.to_nat (5 + n))) by lia.
  rewrite (take_S_r _ _ _ Hb), Htake. by rewrite <- (assoc_L (++)).
Qed.

Lemma parse_build_roundtrip_witness :
  build_packet 1 [x41] =
    Ok (take (Z.to_nat (5 + len [x41] + 1))
          [xca; xfe; x01; x00; x01; x41; x75; xde; xad]).
Proof.
  apply (parse_build_roundtrip [xca; xfe; x01; x00; x01; x41; x75; xde; xad]
           (packet_dict MAGIC_NUMBER 1 1 [x41] 0x75) 1 [x41]).
  - reflexivity.
  - reflexivity.
  - reflexivity.
Defined.

Lemma parse_packet_accepts_iff_witness :
  exists d,
    outcome (parse_packet (PyBytes [xca; xfe; x02; x00; x01; x07; x30])) =
      Ok d.
Proof.
  apply (proj2 (parse_packet_accepts_iff
                  [xca; xfe; x02; x00; x01; x07; x30])).
  exists 2, 1, 0x30. split_and!.
  - concrete_header.
  - split; [vm_compute; discriminate | reflexivity].
  - reflexivity.
  - discriminate.
Defined.
